(** * Job lifecycle of the quant-finance platform: a shallow embedding

    The embedded code is the job API of the backend
    ([backend/app/api/jobs.py], [backend/app/models.py],
    [backend/app/pubsub.py], [backend/app/schemas.py]) and the Pub/Sub push
    worker ([backend/worker/main.py], [backend/worker/gcs.py]).

    Python values that travel as JSON are [json]; exceptions are an error
    outcome of a small state monad over [World], which holds the [jobs]
    table, the artifact bucket, the Pub/Sub topic, a log of calls into the
    data and model collaborators, and the clock read by
    [datetime.utcnow()]. *)

From Stdlib Require Import String List ZArith QArith Qminmax Bool Lia RelationClasses.
From Stdlib Require Import Ascii Sorted Permutation DecimalString.
Import ListNotations.

Open Scope Z_scope.
Open Scope string_scope.
Set Warnings "-register-all".

(** ** Python values *)

(** A JSON-like Python value: [None], booleans, numbers, strings, lists and
    dicts (a dict as an association list with distinct keys). *)
Inductive json : Type :=
| JNull
| JBool (b : bool)
| JNum (z : Z)
| JStr (s : string)
| JArr (l : list json)
| JObj (kv : list (string * json)).

Fixpoint assoc_get (k : string) (kv : list (string * json)) : option json :=
  match kv with
  | [] => None
  | (k', v) :: r => if String.eqb k k' then Some v else assoc_get k r
  end.

(** Python truthiness ([if not data:]). *)
Definition py_truthy (v : json) : bool :=
  match v with
  | JNull => false
  | JBool b => b
  | JNum z => negb (Z.eqb z 0)
  | JStr s => negb (String.eqb s "")
  | JArr l => match l with [] => false | _ => true end
  | JObj kv => match kv with [] => false | _ => true end
  end.

(** [k in d] for a dict. *)
Definition py_contains (d : json) (k : string) : bool :=
  match d with
  | JObj kv => match assoc_get k kv with Some _ => true | None => false end
  | _ => false
  end.

(** [str(v)] as an f-string renders a value: a string as itself, any
    other value as its [repr]. A character of a string is the code point
    of its byte. *)
Definition hex_digit (n : nat) : Ascii.ascii :=
  Ascii.ascii_of_nat (if Nat.ltb n 10 then 48 + n else 87 + n)%nat.

(** One character of a string's [repr] written between the quotes [q]:
    backslashes and [q] escaped, tab, newline and carriage return as
    escapes, and other characters that are not printable as [\xNN]. *)
Definition repr_char (q c : Ascii.ascii) : string :=
  let n := Ascii.nat_of_ascii c in
  if Ascii.eqb c "\"%char then "\\"
  else if Ascii.eqb c q then String "\"%char (String q EmptyString)
  else if Nat.eqb n 9 then "\t"
  else if Nat.eqb n 10 then "\n"
  else if Nat.eqb n 13 then "\r"
  else if (Nat.ltb n 32 || Nat.eqb n 127 || (Nat.leb 128 n && Nat.leb n 160)
           || Nat.eqb n 173)%bool
  then String "\"%char (String "x"%char
         (String (hex_digit (n / 16)) (String (hex_digit (n mod 16)) EmptyString)))
  else String c EmptyString.

Fixpoint repr_chars (q : Ascii.ascii) (s : string) : string :=
  match s with
  | EmptyString => EmptyString
  | String c r => repr_char q c ++ repr_chars q r
  end.

Fixpoint has_char (c : Ascii.ascii) (s : string) : bool :=
  match s with
  | EmptyString => false
  | String d r => Ascii.eqb c d || has_char c r
  end.

Definition dquote : Ascii.ascii := Ascii.ascii_of_nat 34.

(** [repr] of a string: in double quotes when it holds a single quote and
    no double quote, in single quotes otherwise. *)
Definition repr_str (s : string) : string :=
  let q := if has_char "'"%char s && negb (has_char dquote s) then dquote else "'"%char in
  String q (repr_chars q s ++ String q EmptyString).

Definition string_of_Z (z : Z) : string := NilZero.string_of_int (Z.to_int z).

(** [repr] of a value. *)
Fixpoint py_repr (v : json) : string :=
  match v with
  | JNull => "None"
  | JBool b => if b then "True" else "False"
  | JNum z => string_of_Z z
  | JStr s => repr_str s
  | JArr l =>
      "[" ++ (fix go (l : list json) : string :=
                match l with
                | [] => EmptyString
                | x :: r =>
                    py_repr x ++ match r with [] => EmptyString | _ => ", " ++ go r end
                end) l ++ "]"
  | JObj kv =>
      "{" ++ (fix go (kv : list (string * json)) : string :=
                match kv with
                | [] => EmptyString
                | (k, x) :: r =>
                    repr_str k ++ ": " ++ py_repr x ++
                    match r with [] => EmptyString | _ => ", " ++ go r end
                end) kv ++ "}"
  end.

Definition py_str (v : json) : string :=
  match v with
  | JStr s => s
  | _ => py_repr v
  end.

(** ** Exceptions and the state-and-exception monad *)

Inductive exc : Type :=
| HTTPException (status_code : Z) (detail : string)
| PyException (kind : string) (msg : string).

(** [str(e)]; only ever applied to non-HTTP exceptions by the embedded code. *)
Definition exc_str (e : exc) : string :=
  match e with
  | HTTPException _ d => d
  | PyException _ m => m
  end.

Inductive outcome (A : Type) : Type :=
| Ret (a : A)
| Raise (e : exc).
Arguments Ret {A} a.
Arguments Raise {A} e.

Definition JobId := string.
Definition UserId := string.

(** The GCS object path [f"jobs/{job_id}/{filename}"]. *)
Definition job_path (job_id : json) (filename : string) : string :=
  "jobs/" ++ py_str job_id ++ "/" ++ filename.
Arguments job_path : simpl never.

(** The order in which [list_blobs] lists object names: lexicographic. *)
Fixpoint insert_name (s : string) (l : list string) : list string :=
  match l with
  | [] => [s]
  | x :: r =>
      match String.compare s x with
      | Gt => x :: insert_name s r
      | _ => s :: l
      end
  end.

Definition sort_names (l : list string) : list string := fold_right insert_name [] l.

(** Calls into the data and model collaborators of the worker. *)
Inductive Call : Type :=
| CLoadPrices (job_id : json)
| CRunModel (job_id : json) (job_type : json).

Module Job.

(** A row of the [jobs] table ([class Job(Base)]); [start_ts]/[end_ts]
    are kept as the [YYYY-MM-DD] strings they are parsed from and printed
    back to, times are seconds. *)
Record t : Type := mk {
  id : JobId;
  user_id : UserId;
  type : string;
  status : string;
  params_json : json;
  symbols : list string;
  start_ts : string;
  end_ts : string;
  interval : string;
  vendor : string;
  adjusted : bool;
  created_at : Z;
  started_at : option Z;
  finished_at : option Z;
  result_refs : option json;
  error : option string
}.

Definition with_status (s : string) (j : t) : t :=
  mk (id j) (user_id j) (type j) s (params_json j) (symbols j) (start_ts j)
     (end_ts j) (interval j) (vendor j) (adjusted j) (created_at j)
     (started_at j) (finished_at j) (result_refs j) (error j).

Definition with_started_at (o : option Z) (j : t) : t :=
  mk (id j) (user_id j) (type j) (status j) (params_json j) (symbols j)
     (start_ts j) (end_ts j) (interval j) (vendor j) (adjusted j)
     (created_at j) o (finished_at j) (result_refs j) (error j).

Definition with_finished_at (o : option Z) (j : t) : t :=
  mk (id j) (user_id j) (type j) (status j) (params_json j) (symbols j)
     (start_ts j) (end_ts j) (interval j) (vendor j) (adjusted j)
     (created_at j) (started_at j) o (result_refs j) (error j).

Definition with_result_refs (o : option json) (j : t) : t :=
  mk (id j) (user_id j) (type j) (status j) (params_json j) (symbols j)
     (start_ts j) (end_ts j) (interval j) (vendor j) (adjusted j)
     (created_at j) (started_at j) (finished_at j) o (error j).

Definition with_error (o : option string) (j : t) : t :=
  mk (id j) (user_id j) (type j) (status j) (params_json j) (symbols j)
     (start_ts j) (end_ts j) (interval j) (vendor j) (adjusted j)
     (created_at j) (started_at j) (finished_at j) (result_refs j) o.

(** The keyword arguments of [update_status]. [hasattr(self, key)] holds
    for every column, the primary key [id] included, and [setattr] assigns
    it; [ANotColumn] is a keyword naming no column, which is skipped when
    the object has no such attribute and otherwise set on the Python object
    alone, which the row does not store. *)
Inductive attr : Type :=
| AId (x : JobId)
| AUserId (x : UserId)
| AType (x : string)
| AStatus (s : string)
| AParamsJson (x : json)
| ASymbols (x : list string)
| AStartTs (x : string)
| AEndTs (x : string)
| AInterval (x : string)
| AVendor (x : string)
| AAdjusted (x : bool)
| ACreatedAt (x : Z)
| AStartedAt (o : option Z)
| AFinishedAt (o : option Z)
| AResultRefs (o : option json)
| AError (o : option string)
| ANotColumn (key : string).

Definition setattr (j : t) (a : attr) : t :=
  let 'mk i u ty s p sy st et iv ve ad ca sa fa rr er := j in
  match a with
  | AId x => mk x u ty s p sy st et iv ve ad ca sa fa rr er
  | AUserId x => mk i x ty s p sy st et iv ve ad ca sa fa rr er
  | AType x => mk i u x s p sy st et iv ve ad ca sa fa rr er
  | AStatus x => mk i u ty x p sy st et iv ve ad ca sa fa rr er
  | AParamsJson x => mk i u ty s x sy st et iv ve ad ca sa fa rr er
  | ASymbols x => mk i u ty s p x st et iv ve ad ca sa fa rr er
  | AStartTs x => mk i u ty s p sy x et iv ve ad ca sa fa rr er
  | AEndTs x => mk i u ty s p sy st x iv ve ad ca sa fa rr er
  | AInterval x => mk i u ty s p sy st et x ve ad ca sa fa rr er
  | AVendor x => mk i u ty s p sy st et iv x ad ca sa fa rr er
  | AAdjusted x => mk i u ty s p sy st et iv ve x ca sa fa rr er
  | ACreatedAt x => mk i u ty s p sy st et iv ve ad x sa fa rr er
  | AStartedAt x => mk i u ty s p sy st et iv ve ad ca x fa rr er
  | AFinishedAt x => mk i u ty s p sy st et iv ve ad ca sa x rr er
  | AResultRefs x => mk i u ty s p sy st et iv ve ad ca sa fa x er
  | AError x => mk i u ty s p sy st et iv ve ad ca sa fa rr x
  | ANotColumn _ => j
  end.

(** The keyword does not assign the primary key. *)
Definition keeps_id (a : attr) : bool :=
  match a with AId _ => false | _ => true end.

Definition is_some {A} (o : option A) : bool :=
  match o with Some _ => true | None => false end.

(** The row after the assignments of [update_status], before [db.commit()]. *)
Definition update_status_row (now : Z) (self : t) (status : string)
    (kwargs : list attr) : t :=
  let self := with_status status self in
  let self :=
    if String.eqb status "running" && negb (is_some (started_at self))
    then with_started_at (Some now) self
    else if (String.eqb status "completed" || String.eqb status "failed")
            && negb (is_some (finished_at self))
    then with_finished_at (Some now) self
    else self in
  fold_left setattr kwargs self.

End Job.

(** ** The world the services act on *)

Record World : Type := mkWorld {
  db : list Job.t;
  objects : list (string * json);
  published : list json;
  calls : list Call;
  clock : Z;
  (** How the database orders rows of equal [created_at] in an ordered
      query with a given offset and limit: by this rank of their ids. Any
      order of the ties is the order of some rank, and two queries (two
      pages, say) may order their ties differently. *)
  tie_rank : nat -> nat -> JobId -> Z
}.

Definition set_db (d : list Job.t) (w : World) : World :=
  mkWorld d (objects w) (published w) (calls w) (clock w) (tie_rank w).
Definition set_objects (o : list (string * json)) (w : World) : World :=
  mkWorld (db w) o (published w) (calls w) (clock w) (tie_rank w).
Definition set_published (p : list json) (w : World) : World :=
  mkWorld (db w) (objects w) p (calls w) (clock w) (tie_rank w).
Definition set_calls (c : list Call) (w : World) : World :=
  mkWorld (db w) (objects w) (published w) c (clock w) (tie_rank w).

(** The object at a path of the bucket. *)
Definition object_at (path : string) (w : World) : option json :=
  option_map snd (find (fun kv => String.eqb (fst kv) path) (objects w)).

Definition M (A : Type) : Type := World -> outcome A * World.

Definition ret {A} (a : A) : M A := fun w => (Ret a, w).

Definition bind {A B} (m : M A) (f : A -> M B) : M B :=
  fun w =>
    match m w with
    | (Ret a, w') => f a w'
    | (Raise e, w') => (Raise e, w')
    end.

Definition raise {A} (e : exc) : M A := fun w => (Raise e, w).

(** [try: m except Exception as e: h e]. *)
Definition try_except {A} (m : M A) (h : exc -> M A) : M A :=
  fun w =>
    match m w with
    | (Raise e, w') => h e w'
    | r => r
    end.

Definition lift {A} (o : outcome A) : M A := fun w => (o, w).

Definition gets {A} (f : World -> A) : M A := fun w => (Ret (f w), w).

Definition modify (f : World -> World) : M unit := fun w => (Ret tt, f w).

Notation "'let*' x ':=' m 'in' k" := (bind m (fun x => k))
  (at level 200, x name, m at level 100, k at level 200).
Notation "m ;; k" := (bind m (fun _ => k)) (at level 100, right associativity).

(** The value of [d.get(k, default)] on a dict. *)
Definition json_get (d : json) (k : string) (default : json) : json :=
  match d with
  | JObj kv => match assoc_get k kv with Some v => v | None => default end
  | _ => default
  end.
Arguments json_get : simpl never.

(** [d.get(k, default)]: an [AttributeError] when [d] is not a dict. *)
Definition py_get (d : json) (k : string) (default : json) : M json :=
  match d with
  | JObj kv => ret (json_get d k default)
  | _ => raise (PyException "AttributeError" "object has no attribute 'get'")
  end.

(** [d[k]]. *)
Definition py_getitem (d : json) (k : string) : M json :=
  match d with
  | JObj kv =>
      match assoc_get k kv with
      | Some v => ret v
      | None => raise (PyException "KeyError" k)
      end
  | _ => raise (PyException "TypeError" "object is not subscriptable")
  end.

(** ** The [jobs] table ([Job] class methods) *)

Module JobTable.

(** [Job.create_job]: a new row, [status="queued"], [created_at] the
    clock, committed; [new_id] is the value drawn by [uuid.uuid4].  The
    commit fails on the primary key when the id is taken. *)
Definition create_job (new_id : JobId) (user_id : UserId) (job_type : string)
    (symbols : list string) (start_date end_date : string)
    (interval vendor : string) (adjusted : bool) (params : json) : M Job.t :=
  fun w =>
    if existsb (fun j => String.eqb (Job.id j) new_id) (db w)
    then (Raise (PyException "IntegrityError" "duplicate key value violates unique constraint"), w)
    else
      let job := Job.mk new_id user_id job_type "queued" params symbols
                   start_date end_date interval vendor adjusted (clock w)
                   None None None None in
      (Ret job, set_db (db w ++ [job])%list w).

(** [Job.get_job]: [filter(cls.id == job_id).first()]. *)
Definition get_job (job_id : JobId) : M (option Job.t) :=
  gets (fun w => find (fun j => String.eqb (Job.id j) job_id) (db w)).

(** [db.commit()] of a row loaded under the id [key]: the stored row is
    replaced by [self]; when [self] carries another id, the primary key is
    updated, which fails when a second row has that id. *)
Definition commit (key : JobId) (self : Job.t) : M unit :=
  fun w =>
    if negb (String.eqb (Job.id self) key)
       && existsb (fun j => String.eqb (Job.id j) (Job.id self)) (db w)
    then (Raise (PyException "IntegrityError" "duplicate key value violates unique constraint"), w)
    else (Ret tt,
          set_db (map (fun j => if String.eqb (Job.id j) key then self else j) (db w)) w).

(** [job.update_status(db, status, **kwargs)]. *)
Definition update_status (self : Job.t) (status : string)
    (kwargs : list Job.attr) : M Job.t :=
  let* now := gets clock in
  let row := Job.update_status_row now self status kwargs in
  commit (Job.id self) row ;;
  ret row.

(** [job.set_error(db, error)]. *)
Definition set_error (self : Job.t) (error : string) : M Job.t :=
  update_status (Job.with_error (Some error) self) "failed" [].

(** [job.set_results(db, result_refs)]. *)
Definition set_results (self : Job.t) (result_refs : json) : M Job.t :=
  update_status (Job.with_result_refs (Some result_refs) self) "completed" [].

(** [order_by(cls.created_at.desc())]: newest first; rows of equal
    [created_at] in the order [rank] gives them (see [tie_rank]). *)
Fixpoint insert_desc (rank : JobId -> Z) (j : Job.t) (l : list Job.t) : list Job.t :=
  match l with
  | [] => [j]
  | x :: r =>
      if Z.ltb (Job.created_at x) (Job.created_at j)
         || Z.eqb (Job.created_at x) (Job.created_at j)
            && Z.ltb (rank (Job.id j)) (rank (Job.id x))
      then j :: l
      else x :: insert_desc rank j r
  end.

Definition sort_created_desc (rank : JobId -> Z) (l : list Job.t) : list Job.t :=
  fold_right (insert_desc rank) [] l.

(** [order_by(cls.created_at.asc())]: oldest first; rows of equal
    [created_at] in the order [rank] gives them (see [tie_rank]). *)
Fixpoint insert_asc (rank : JobId -> Z) (j : Job.t) (l : list Job.t) : list Job.t :=
  match l with
  | [] => [j]
  | x :: r =>
      if Z.ltb (Job.created_at j) (Job.created_at x)
         || Z.eqb (Job.created_at j) (Job.created_at x)
            && Z.ltb (rank (Job.id j)) (rank (Job.id x))
      then j :: l
      else x :: insert_asc rank j r
  end.

Definition sort_created_asc (rank : JobId -> Z) (l : list Job.t) : list Job.t :=
  fold_right (insert_asc rank) [] l.

Definition is_pending (j : Job.t) : bool :=
  existsb (String.eqb (Job.status j)) ["queued"; "running"].

(** [Job.get_pending_jobs]: [filter(cls.status.in_(["queued", "running"]))
    .order_by(cls.created_at.asc()).limit(limit)]. *)
Definition get_pending_jobs (limit : nat) : M (list Job.t) :=
  gets (fun w => firstn limit (sort_created_asc (tie_rank w 0 limit) (filter is_pending (db w)))).

Definition user_rows (user_id : UserId) (d : list Job.t) : list Job.t :=
  filter (fun j => String.eqb (Job.user_id j) user_id) d.

(** [Job.get_user_jobs]: the page [offset((page-1)*size).limit(size)] of the
    user's rows, newest first, and the count of all the user's rows. *)
Definition get_user_jobs (user_id : UserId) (page size : nat)
    : M (list Job.t * nat) :=
  gets (fun w =>
    let offset := ((page - 1) * size)%nat in
    let jobs :=
      firstn size (skipn offset
        (sort_created_desc (tie_rank w offset size) (user_rows user_id (db w)))) in
    let total := length (user_rows user_id (db w)) in
    (jobs, total)).

End JobTable.

(** ** Schemas ([backend/app/schemas.py]) *)

Inductive JobType : Type := MONTE_CARLO | MARKOWITZ | BLACK_SCHOLES | BACKTEST.

Definition JobType_value (t : JobType) : string :=
  match t with
  | MONTE_CARLO => "montecarlo"
  | MARKOWITZ => "markowitz"
  | BLACK_SCHOLES => "blackscholes"
  | BACKTEST => "backtest"
  end.

(** [JobType(s)]: a [ValueError] for a string that is no member's value. *)
Definition JobType_of (s : string) : M JobType :=
  if String.eqb s "montecarlo" then ret MONTE_CARLO
  else if String.eqb s "markowitz" then ret MARKOWITZ
  else if String.eqb s "blackscholes" then ret BLACK_SCHOLES
  else if String.eqb s "backtest" then ret BACKTEST
  else raise (PyException "ValueError" (s ++ " is not a valid JobType")).

Inductive JobStatus : Type := QUEUED | RUNNING | COMPLETED | FAILED.

Definition JobStatus_value (s : JobStatus) : string :=
  match s with
  | QUEUED => "queued"
  | RUNNING => "running"
  | COMPLETED => "completed"
  | FAILED => "failed"
  end.

(** Pydantic's coercion of a string into [JobStatus]. *)
Definition JobStatus_parse (s : string) : option JobStatus :=
  find (fun v => String.eqb (JobStatus_value v) s) [QUEUED; RUNNING; COMPLETED; FAILED].

Definition DataInterval_values : list string :=
  ["1min"; "5min"; "15min"; "30min"; "45min"; "1h"; "2h"; "4h"; "1d"; "1week"; "1month"].

Definition DataVendor_values : list string := ["eodhd"; "twelvedata"].

Definition str_mem (s : string) (l : list string) : bool :=
  existsb (String.eqb s) l.

(** [class JobStatusResponse(BaseModel)]. *)
Record JobStatusResponse : Type := mkJobStatusResponse {
  r_job_id : JobId;
  r_user_id : UserId;
  r_type : JobType;
  r_status : JobStatus;
  r_symbols : list string;
  r_start : string;
  r_end : string;
  r_interval : string;
  r_vendor : string;
  r_adjusted : bool;
  r_params : json;
  r_created_at : Z;
  r_started_at : option Z;
  r_finished_at : option Z;
  r_metrics : json;
  r_result_urls : json;
  r_error : option string;
  r_progress : option Q
}.

Definition validation_error {A} (field : string) : M A :=
  raise (PyException "ValidationError" field).

Definition is_dict (v : json) : bool :=
  match v with JObj _ => true | _ => false end.

Definition is_str (v : json) : bool :=
  match v with JStr _ => true | _ => false end.

(** [JobStatusResponse(...)]: pydantic's validation of the fields. *)
Definition JobStatusResponse_new (job_id : JobId) (user_id : UserId)
    (type : JobType) (status : string) (symbols : list string)
    (start end_ interval vendor : string) (adjusted : bool) (params : json)
    (created_at : Z) (started_at finished_at : option Z)
    (metrics result_urls : json) (error : option string)
    (progress : option Q) : M JobStatusResponse :=
  match JobStatus_parse status with
  | None => validation_error "status"
  | Some st =>
      if negb (str_mem interval DataInterval_values) then validation_error "interval"
      else if negb (str_mem vendor DataVendor_values) then validation_error "vendor"
      else if negb (is_dict params) then validation_error "params"
      else if negb (match metrics with JNull => true | JObj _ => true | _ => false end)
      then validation_error "metrics"
      else if negb (match result_urls with
                    | JNull => true
                    | JArr l => forallb is_str l
                    | _ => false end)
      then validation_error "result_urls"
      else if negb (match progress with
                    | None => true
                    | Some q => Qle_bool 0 q && Qle_bool q 1 end)
      then validation_error "progress"
      else ret (mkJobStatusResponse job_id user_id type st symbols start end_
                  interval vendor adjusted params created_at started_at
                  finished_at metrics result_urls error progress)
  end.

Record JobListResponse : Type := mkJobListResponse {
  l_jobs : list JobStatusResponse;
  l_total : nat;
  l_page : nat;
  l_size : nat;
  l_has_next : bool
}.

Record JobCreateResponse : Type := mkJobCreateResponse {
  c_job_id : JobId;
  c_status : JobStatus;
  c_message : string;
  c_estimated_duration : option Z
}.

(** [class CreateJobRequest(BaseModel)], after validation. *)
Record CreateJobRequest : Type := mkCreateJobRequest {
  q_type : JobType;
  q_symbols : list string;
  q_start : string;
  q_end : string;
  q_interval : string;
  q_vendor : option string;
  q_adjusted : bool;
  q_params : json
}.

(** ** The job API ([backend/app/api/jobs.py]) *)

Module Api.

(** [_estimate_job_duration]. *)
Definition _estimate_job_duration (job_type : JobType) (num_symbols : Z) : Z :=
  let base := match job_type with
              | MONTE_CARLO => 30
              | MARKOWITZ => 15
              | BLACK_SCHOLES => 10
              | BACKTEST => 45
              end in
  let symbol_factor := Z.min (num_symbols * 2) 60 in
  base + symbol_factor.

(** [_calculate_job_progress]; Python's float arithmetic is taken exact.
    [created_at] is never [None] (a non-null column). *)
Definition _calculate_job_progress (job : Job.t) : M (option Q) :=
  if String.eqb (Job.status job) "queued" then ret (Some 0%Q)
  else if String.eqb (Job.status job) "running" then
    match Job.started_at job with
    | Some started_at =>
        let elapsed := started_at - Job.created_at job in
        let* jt := JobType_of (Job.type job) in
        let estimated_duration :=
          _estimate_job_duration jt (Z.of_nat (length (Job.symbols job))) in
        ret (Some (Qmin (9 # 10) (inject_Z elapsed / inject_Z estimated_duration)))
    | None => ret (Some (1 # 2))
    end
  else if String.eqb (Job.status job) "completed" then ret (Some 1%Q)
  else if String.eqb (Job.status job) "failed" then ret (Some 0%Q)
  else ret None.

(** [job.result_refs.get(k) if job.result_refs else None]. *)
Definition result_ref (job : Job.t) (k : string) : M json :=
  match Job.result_refs job with
  | Some rr => if py_truthy rr then py_get rr k JNull else ret JNull
  | None => ret JNull
  end.

(** The [JobStatusResponse(...)] built from a row in [get_job] and
    [list_jobs]. *)
Definition job_response (job : Job.t) : M JobStatusResponse :=
  let* jt := JobType_of (Job.type job) in
  let* metrics := result_ref job "metrics" in
  let* result_urls := result_ref job "urls" in
  let* progress := _calculate_job_progress job in
  JobStatusResponse_new (Job.id job) (Job.user_id job) jt (Job.status job)
    (Job.symbols job) (Job.start_ts job) (Job.end_ts job) (Job.interval job)
    (Job.vendor job) (Job.adjusted job) (Job.params_json job)
    (Job.created_at job) (Job.started_at job) (Job.finished_at job)
    metrics result_urls (Job.error job) progress.

(** The path parameter [job_id] after [uuid.UUID(job_id)]: [None] when that
    raises [ValueError]. *)
Definition parse_job_id {A} (job_uuid : option JobId) (k : JobId -> M A) : M A :=
  match job_uuid with
  | None => raise (HTTPException 400 "Invalid job ID format")
  | Some u => k u
  end.

(** [GET /v1/jobs/{job_id}]. *)
Definition get_job (job_uuid : option JobId) (current_user : UserId)
    : M JobStatusResponse :=
  parse_job_id job_uuid (fun u =>
  let* job := JobTable.get_job u in
  match job with
  | None => raise (HTTPException 404 "Job not found")
  | Some job =>
      if negb (String.eqb (Job.user_id job) current_user)
      then raise (HTTPException 403 "Access denied")
      else job_response job
  end).

Fixpoint map_m {A B} (f : A -> M B) (l : list A) : M (list B) :=
  match l with
  | [] => ret []
  | x :: r => let* y := f x in let* ys := map_m f r in ret (y :: ys)
  end.

Definition status_filter_active (status_filter : option string) : bool :=
  match status_filter with Some s => py_truthy (JStr s) | None => false end.

(** The loop of [list_jobs] that drops the rows not matching a filter. *)
Definition keep_job (job_type : option JobType) (status_filter : option string)
    (job : Job.t) : bool :=
  let type_ok := match job_type with
                 | Some jt => String.eqb (Job.type job) (JobType_value jt)
                 | None => true
                 end in
  let status_ok := match status_filter with
                   | Some s => if status_filter_active status_filter
                               then String.eqb (Job.status job) s else true
                   | None => true
                   end in
  type_ok && status_ok.

(** [GET /v1/jobs/]. *)
Definition list_jobs (page size : nat) (job_type : option JobType)
    (status_filter : option string) (current_user : UserId)
    : M JobListResponse :=
  let* r := JobTable.get_user_jobs current_user page size in
  let (jobs, total) := r in
  let jobs := if Job.is_some job_type || status_filter_active status_filter
              then filter (keep_job job_type status_filter) jobs
              else jobs in
  let* job_responses := map_m job_response jobs in
  ret (mkJobListResponse job_responses total page size
         (Nat.ltb (page * size) total)).

(** [DELETE /v1/jobs/{job_id}]. *)
Definition cancel_job (job_uuid : option JobId) (current_user : UserId)
    : M json :=
  parse_job_id job_uuid (fun u =>
  let* job := JobTable.get_job u in
  match job with
  | None => raise (HTTPException 404 "Job not found")
  | Some job =>
      if negb (String.eqb (Job.user_id job) current_user)
      then raise (HTTPException 403 "Access denied")
      else if negb (String.eqb (Job.status job) "queued")
      then raise (HTTPException 400 "Only queued jobs can be cancelled")
      else
        JobTable.update_status job "cancelled" [] ;;
        ret (JObj [("message", JStr "Job cancelled successfully")])
  end).

End Api.

(** ** Pub/Sub publisher ([backend/app/pubsub.py]) *)

(** The publisher: [self.publisher] is set only when [GCP_PROJECT] is set
    and the client library loads; [future.result()] of a publish gives the
    message id or raises. *)
Record PubSubPublisher : Type := mkPubSubPublisher {
  publisher_available : bool;
  publish_result : json -> outcome string
}.

(** [PubSubPublisher.publish_job]: the message reaches the topic when
    [future.result()] returns. *)
Definition publish_job (pub : PubSubPublisher) (job_data : json)
    : M (option string) :=
  if negb (publisher_available pub) then ret None
  else
    match publish_result pub job_data with
    | Ret message_id =>
        modify (fun w => set_published (published w ++ [job_data]) w) ;;
        ret (Some message_id)
    | Raise e => raise e
    end.

Module Submit.

Definition message_data (job : Job.t) (req : CreateJobRequest) : json :=
  JObj [("job_id", JStr (Job.id job));
        ("user_id", JStr (Job.user_id job));
        ("type", JStr (Job.type job));
        ("symbols", JArr (map JStr (Job.symbols job)));
        ("start_date", JStr (q_start req));
        ("end_date", JStr (q_end req));
        ("interval", JStr (Job.interval job));
        ("vendor", JStr (Job.vendor job));
        ("adjusted", JBool (Job.adjusted job));
        ("params", Job.params_json job)].

(** [db.rollback()]: the job row was committed by [Job.create_job], so
    nothing is pending to roll back when the publish fails. *)
Definition db_rollback : M unit := ret tt.

(** [POST /v1/jobs/] ([create_job]); [new_id] is the id [uuid.uuid4]
    draws for the row. *)
Definition create_job (pub : PubSubPublisher) (new_id : JobId)
    (current_user : UserId) (job_request : CreateJobRequest)
    : M JobCreateResponse :=
  try_except
    (let* job := JobTable.create_job new_id current_user
                   (JobType_value (q_type job_request)) (q_symbols job_request)
                   (q_start job_request) (q_end job_request)
                   (q_interval job_request)
                   (match q_vendor job_request with Some v => v | None => "eodhd" end)
                   (q_adjusted job_request) (q_params job_request) in
     publish_job pub (message_data job job_request) ;;
     let estimated_duration :=
       Api._estimate_job_duration (q_type job_request)
         (Z.of_nat (length (q_symbols job_request))) in
     match JobStatus_parse (Job.status job) with
     | Some st =>
         ret (mkJobCreateResponse (Job.id job) st "Job queued successfully"
                (Some estimated_duration))
     | None => validation_error "status"
     end)
    (fun e =>
       db_rollback ;;
       raise (HTTPException 500 ("Failed to create job: " ++ exc_str e))).

End Submit.

(** ** The push worker ([backend/worker/main.py], [backend/worker/gcs.py]) *)

(** Python [==] on JSON values. *)
Fixpoint json_eqb (a b : json) {struct a} : bool :=
  match a, b with
  | JNull, JNull => true
  | JBool x, JBool y => Bool.eqb x y
  | JNum x, JNum y => Z.eqb x y
  | JStr x, JStr y => String.eqb x y
  | JArr l1, JArr l2 =>
      (fix go (l1 l2 : list json) : bool :=
         match l1, l2 with
         | [], [] => true
         | x :: r1, y :: r2 => json_eqb x y && go r1 r2
         | _, _ => false
         end) l1 l2
  | JObj k1, JObj k2 =>
      (fix go (k1 k2 : list (string * json)) : bool :=
         match k1, k2 with
         | [], [] => true
         | (s1, x) :: r1, (s2, y) :: r2 =>
             String.eqb s1 s2 && json_eqb x y && go r1 r2
         | _, _ => false
         end) k1 k2
  | _, _ => false
  end.

(** The worker's collaborators, outside the repository's code:
    - [decode_payload]: [json.loads(base64.b64decode(data).decode("utf-8"))];
    - [load_prices]: [bq_loader.load_prices(symbols, start_date, end_date,
      interval, adjusted, vendor)];
    - [run_model]: [run_model(job_type, params, prices_df)];
    - [gcs_bucket]: whether [GCSWriter.bucket] is set;
    - [gcs_upload]: [blob.upload_from_string] at a path;
    - [list_blobs]: [client.list_blobs(bucket, prefix=...)] with the page
      requests of the iteration over it;
    - [signed_url]: [blob.generate_signed_url] of a path, which raises, for
      one, with credentials that hold no private key.
    A [Raise] is the exception the call raises. *)
Record WorkerEnv : Type := mkWorkerEnv {
  decode_payload : json -> outcome json;
  load_prices : json -> json -> json -> json -> json -> json -> outcome json;
  run_model : json -> json -> json -> outcome json;
  gcs_bucket : bool;
  gcs_upload : string -> outcome unit;
  list_blobs : string -> outcome unit;
  signed_url : string -> outcome string
}.

(** [str.lower()] on ASCII text. *)
Definition ascii_lower (c : Ascii.ascii) : Ascii.ascii :=
  let n := Ascii.nat_of_ascii c in
  if (Nat.leb 65 n && Nat.leb n 90)%nat then Ascii.ascii_of_nat (n + 32)%nat else c.

Fixpoint str_lower (s : string) : string :=
  match s with
  | EmptyString => EmptyString
  | String c r => String (ascii_lower c) (str_lower r)
  end.

Module Worker.
Section Worker.
Variable env : WorkerEnv.

(** One upload to a path, replacing the object there. *)
Definition gcs_put (path : string) (content : json) : M string :=
  if negb (gcs_bucket env)
  then raise (PyException "RuntimeError" "GCS client not available")
  else
    match gcs_upload env path with
    | Raise e => raise e
    | Ret _ =>
        modify (fun w =>
          set_objects (filter (fun kv => negb (String.eqb (fst kv) path)) (objects w)
                       ++ [(path, content)])%list w) ;;
        ret path
    end.

(** [GCSWriter.write_metrics_json]. *)
Definition write_metrics_json (job_id : json) (metrics : json) (filename : string)
    : M string :=
  gcs_put (job_path job_id filename) metrics.

(** [GCSWriter.write_artifact_csv]; the object holds the table. *)
Definition write_artifact_csv (job_id : json) (df : json) (filename : string)
    : M string :=
  gcs_put (job_path job_id filename) df.

(** [GCSWriter.write_artifact_parquet]; the object holds the table. *)
Definition write_artifact_parquet (job_id : json) (df : json) (filename : string)
    : M string :=
  gcs_put (job_path job_id filename) df.

(** [GCSWriter.write_artifact_dataframe]. *)
Definition write_artifact_dataframe (job_id : json) (df : json)
    (name format : string) : M string :=
  if String.eqb (str_lower format) "csv" then
    write_artifact_csv job_id df (name ++ ".csv")
  else if String.eqb (str_lower format) "parquet" then
    write_artifact_parquet job_id df (name ++ ".parquet")
  else raise (PyException "ValueError" "Format must be 'csv' or 'parquet'").

(** [GCSWriter.write_job_summary]. *)
Definition write_job_summary (job_id job_type symbols start_date end_date
    metrics : json) (artifacts : list string) : M string :=
  let* now := gets clock in
  write_metrics_json job_id
    (JObj [("job_id", job_id); ("job_type", job_type); ("symbols", symbols);
           ("start_date", start_date); ("end_date", end_date);
           ("created_at", JNum now); ("metrics", metrics);
           ("artifacts", JArr (map JStr artifacts))])
    "summary.json".

(** The loop of [generate_signed_urls] over the listed objects. *)
Fixpoint sign_all (names : list string) : M (list string) :=
  match names with
  | [] => ret []
  | name :: r =>
      let* url := lift (signed_url env name) in
      let* urls := sign_all r in
      ret (url :: urls)
  end.

(** [GCSWriter.generate_signed_urls]: one URL per object whose name starts
    with the job's prefix, in the order of the listing. *)
Definition generate_signed_urls (job_id : json) : M (list string) :=
  if negb (gcs_bucket env)
  then raise (PyException "RuntimeError" "GCS client not available")
  else
    let job_prefix := "jobs/" ++ py_str job_id ++ "/" in
    lift (list_blobs env job_prefix) ;;
    let* names := gets (fun w =>
      sort_names (filter (String.prefix job_prefix) (map fst (objects w)))) in
    sign_all names.

Definition log_call (c : Call) : M unit :=
  modify (fun w => set_calls (calls w ++ [c])%list w).

(** [process_job]; [pd.DataFrame(model_results[...])] is the model's table
    itself. *)
Definition process_job (job_data : json) : M json :=
  let* job_id := py_get job_data "job_id" JNull in
  let* job_type := py_get job_data "type" JNull in
  let* symbols := py_get job_data "symbols" (JArr []) in
  let* start_date := py_get job_data "start_date" JNull in
  let* end_date := py_get job_data "end_date" JNull in
  let* interval := py_get job_data "interval" (JStr "1d") in
  let* vendor := py_get job_data "vendor" (JStr "eodhd") in
  let* adjusted := py_get job_data "adjusted" (JBool true) in
  let* params := py_get job_data "params" (JObj []) in
  try_except
    (log_call (CLoadPrices job_id) ;;
     let* prices_df :=
       lift (load_prices env symbols start_date end_date interval adjusted vendor) in
     log_call (CRunModel job_id job_type) ;;
     let* model_results := lift (run_model env job_type params prices_df) in
     let* metrics := py_getitem model_results "metrics" in
     let* metrics_path := write_metrics_json job_id metrics "metrics.json" in
     let artifacts := [metrics_path] in
     let* artifacts :=
       if py_contains model_results "prices" then
         let* prices_path := write_artifact_dataframe job_id prices_df "prices" "csv" in
         ret (artifacts ++ [prices_path])%list
       else ret artifacts in
     let* artifacts :=
       if json_eqb job_type (JStr "montecarlo") && py_contains model_results "paths" then
         let* paths_df := py_getitem model_results "paths" in
         let* paths_path :=
           write_artifact_dataframe job_id paths_df "simulation_paths" "csv" in
         ret (artifacts ++ [paths_path])%list
       else if json_eqb job_type (JStr "markowitz") && py_contains model_results "weights" then
         let* weights_df := py_getitem model_results "weights" in
         let* weights_path :=
           write_artifact_dataframe job_id weights_df "portfolio_weights" "csv" in
         ret (artifacts ++ [weights_path])%list
       else ret artifacts in
     let* metrics := py_getitem model_results "metrics" in
     write_job_summary job_id job_type symbols start_date end_date metrics artifacts ;;
     let* signed_urls := generate_signed_urls job_id in
     let* metrics := py_getitem model_results "metrics" in
     ret (JObj [("job_id", job_id); ("status", JStr "completed");
                ("artifacts", JArr (map JStr artifacts));
                ("signed_urls", JArr (map JStr signed_urls));
                ("metrics", metrics)]))
    (fun e =>
       try_except
         (let* now := gets clock in
          write_metrics_json job_id
            (JObj [("job_id", job_id); ("error", JStr (exc_str e));
                   ("timestamp", JNum now)])
            "error.json" ;;
          ret tt)
         (fun _ => ret tt) ;;
       raise e).

(** A push request: the [authorization] header and the body, [None] when
    [await request.json()] fails. *)
Record PushRequest : Type := mkPushRequest {
  authorization : option string;
  body : option json
}.

(** [POST /pubsub] ([process_pubsub_message]). *)
Definition process_pubsub_message (request : PushRequest) : M json :=
  try_except
    (let auth_ok := match authorization request with
                    | Some h => py_truthy (JStr h) && String.prefix "Bearer " h
                    | None => false
                    end in
     if negb auth_ok then raise (HTTPException 401 "Invalid authentication")
     else
       let* body := match body request with
                    | Some b => ret b
                    | None => raise (PyException "JSONDecodeError" "Expecting value")
                    end in
       let* message := py_get body "message" (JObj []) in
       let* data := py_get message "data" (JStr "") in
       if negb (py_truthy data) then raise (HTTPException 400 "No message data")
       else
         let* job_data :=
           try_except (lift (decode_payload env data))
             (fun e => raise (HTTPException 400 ("Invalid message format: " ++ exc_str e))) in
         process_job job_data ;;
         let* jid := py_get job_data "job_id" JNull in
         ret (JObj [("status", JStr "processed"); ("job_id", jid)]))
    (fun e =>
       match e with
       | HTTPException _ _ => raise e
       | PyException _ m => raise (HTTPException 500 ("Internal server error: " ++ m))
       end).

End Worker.
End Worker.

(** ** HTTP responses and the push contract *)

Inductive http_response (A : Type) : Type :=
| Respond (code : Z) (content : A)
| ErrorResponse (code : Z) (detail : string).
Arguments Respond {A} code content.
Arguments ErrorResponse {A} code detail.

(** What FastAPI sends for a route's outcome: 200 with the value, the code
    of an [HTTPException], 500 for any other exception. *)
Definition serve {A} (o : outcome A) : http_response A :=
  match o with
  | Ret a => Respond 200 a
  | Raise (HTTPException c d) => ErrorResponse c d
  | Raise (PyException _ _) => ErrorResponse 500 "Internal Server Error"
  end.

(** The acknowledgement rule of a Pub/Sub push subscription: a delivery is
    acknowledged by one of the success codes 102, 200, 201, 202 or 204;
    any other answer is a negative acknowledgement and the message is
    redelivered. *)
Definition pubsub_acked {A} (r : http_response A) : bool :=
  match r with
  | Respond c _ => existsb (Z.eqb c) [102; 200; 201; 202; 204]
  | ErrorResponse c _ => existsb (Z.eqb c) [102; 200; 201; 202; 204]
  end.

(** ** The system's steps on the job table *)

(** One request handled by the API or the worker, or time passing. *)
Inductive app_step : World -> World -> Prop :=
| step_create pub new_id user req w :
    app_step w (snd (Submit.create_job pub new_id user req w))
| step_get u user w : app_step w (snd (Api.get_job u user w))
| step_list page size jt sf user w :
    app_step w (snd (Api.list_jobs page size jt sf user w))
| step_cancel u user w : app_step w (snd (Api.cancel_job u user w))
| step_deliver env req w :
    app_step w (snd (Worker.process_pubsub_message env req w))
| step_tick w dt :
    app_step w (mkWorld (db w) (objects w) (published w) (calls w) (clock w + Z.abs dt) (tie_rank w)).

Inductive app_steps : World -> World -> Prop :=
| steps_refl w : app_steps w w
| steps_cons w1 w2 w3 : app_step w1 w2 -> app_steps w2 w3 -> app_steps w1 w3.

(** The status order of the state machine restricted to the moves the code
    makes: a row keeps its status or goes from queued to cancelled. *)
Definition status_le (s s' : string) : Prop :=
  s' = s \/ (s = "queued" /\ s' = "cancelled").

(** [d'] holds the rows of [d], in place, each with its status moved along
    [status_le], followed by fresh rows that started queued. *)
Definition table_le (d d' : list Job.t) : Prop :=
  exists mid fresh,
    d' = (mid ++ fresh)%list /\
    Forall2 (fun j j' => Job.id j' = Job.id j /\ status_le (Job.status j) (Job.status j')) d mid /\
    Forall (fun j => status_le "queued" (Job.status j)) fresh.

Definition ids_unique (d : list Job.t) : Prop := NoDup (map Job.id d).

(** ** Preservation of world components by monadic code *)

Definition preserves (R : World -> World -> Prop) {A} (m : M A) : Prop :=
  forall w, R w (snd (m w)).

Definition same_db (w w' : World) : Prop := db w' = db w.

Definition calls_grow (w w' : World) : Prop := exists l, calls w' = (calls w ++ l)%list.

(** [m] neither reads nor writes the job table. *)
Definition db_blind {A} (m : M A) : Prop :=
  forall w d, m (set_db d w) = (fst (m w), set_db d (snd (m w))).

(** [data] of a push body [{"message": {"data": ...}}], when both levels
    are dicts. *)
Definition push_data (b : json) : option json :=
  match b with
  | JObj _ =>
      match json_get b "message" (JObj []) with
      | JObj kv => Some (json_get (JObj kv) "data" (JStr ""))
      | _ => None
      end
  | _ => None
  end.

Definition bearer (request : Worker.PushRequest) : bool :=
  match Worker.authorization request with
  | Some h => py_truthy (JStr h) && String.prefix "Bearer " h
  | None => false
  end.


(** The status stored for a job id. *)
Definition status_of (d : list Job.t) (u : JobId) : option string :=
  option_map Job.status (find (fun j => String.eqb (Job.id j) u) d).

(** [m] leaves the whole world as it was. *)
Definition unchanged (w w' : World) : Prop := w' = w.

(** The orders [order_by(created_at.desc())] and [.asc()] produce. *)
Definition newer_first (a b : Job.t) : Prop := Job.created_at b <= Job.created_at a.
Definition older_first (a b : Job.t) : Prop := Job.created_at a <= Job.created_at b.

(** The fields of a [JobStatusResponse] that copy the row it is built from. *)
Definition view_of (j : Job.t) (v : JobStatusResponse) : Prop :=
  r_job_id v = Job.id j /\ r_user_id v = Job.user_id j /\
  JobStatus_value (r_status v) = Job.status j /\
  JobType_value (r_type v) = Job.type j /\
  r_symbols v = Job.symbols j /\ r_params v = Job.params_json j /\
  r_created_at v = Job.created_at j /\ r_started_at v = Job.started_at j /\
  r_finished_at v = Job.finished_at j /\ r_error v = Job.error j.

(** ** Concrete inputs *)

Definition demo_user : UserId := "00000000-0000-0000-0000-000000000001".

Definition demo_params : json :=
  JObj [("option_type", JStr "call"); ("strike_price", JNum 150);
        ("time_to_expiry", JNum 1)].

Definition demo_job (u : JobId) (status : string) : Job.t :=
  Job.mk u demo_user "blackscholes" status demo_params ["AAPL"] "2024-01-01"
    "2024-01-31" "1d" "eodhd" true 0 None None None None.

Definition demo_world (d : list Job.t) : World := mkWorld d [] [] [] 100 (fun _ _ _ => 0).

Definition demo_request : CreateJobRequest :=
  mkCreateJobRequest BLACK_SCHOLES ["AAPL"] "2024-01-01" "2024-01-31" "1d"
    (Some "eodhd") true demo_params.

(** A publisher whose client did not initialise (no [GCP_PROJECT]). *)
Definition pub_disabled : PubSubPublisher :=
  mkPubSubPublisher false (fun _ => Ret "0").

Definition pub_ok : PubSubPublisher :=
  mkPubSubPublisher true (fun _ => Ret "msg-1").

Definition pub_failing : PubSubPublisher :=
  mkPubSubPublisher true (fun _ => Raise (PyException "DeadlineExceeded" "publish timed out")).

(** The base64 of [{"job_id":"j1","type":"blackscholes","symbols":["AAPL"]}]. *)
Definition payload_j1 : string :=
  "eyJqb2JfaWQiOiJqMSIsInR5cGUiOiJibGFja3NjaG9sZXMiLCJzeW1ib2xzIjpbIkFBUEwiXX0=".

Definition job_data_j1 : json :=
  JObj [("job_id", JStr "j1"); ("type", JStr "blackscholes");
        ("symbols", JArr [JStr "AAPL"])].

Definition demo_decode (data : json) : outcome json :=
  match data with
  | JStr s =>
      if String.eqb s payload_j1 then Ret job_data_j1
      else Raise (PyException "binascii.Error" "Incorrect padding")
  | _ => Raise (PyException "TypeError" "argument should be a bytes-like object")
  end.

(** Collaborators that all succeed: a one-row price table and a model that
    reports an option price. *)
Definition env_ok : WorkerEnv :=
  mkWorkerEnv demo_decode
    (fun _ _ _ _ _ _ => Ret (JObj [("AAPL", JArr [JNum 155])]))
    (fun _ _ _ => Ret (JObj [("metrics", JObj [("option_price", JNum 12)])]))
    true (fun _ => Ret tt) (fun _ => Ret tt)
    (fun p => Ret ("https://storage.googleapis.com/" ++ p)).

(** The same, with the price source failing. *)
Definition env_no_data : WorkerEnv :=
  mkWorkerEnv demo_decode
    (fun _ _ _ _ _ _ =>
       Raise (PyException "RuntimeError" "Failed to load prices from BigQuery"))
    (fun _ _ _ => Ret (JObj [("metrics", JObj [])]))
    true (fun _ => Ret tt) (fun _ => Ret tt)
    (fun p => Ret ("https://storage.googleapis.com/" ++ p)).

Definition push_of (data : string) : Worker.PushRequest :=
  Worker.mkPushRequest (Some "Bearer token")
    (Some (JObj [("message", JObj [("data", JStr data)])])).

(** A row created at [created] with the given status, for listing tests. *)
Definition demo_job_at (u : JobId) (status : string) (created : Z) : Job.t :=
  Job.mk u demo_user "blackscholes" status demo_params ["AAPL"] "2024-01-01"
    "2024-01-31" "1d" "eodhd" true created None None None None.

(** A Black-Scholes job on one symbol, created at 0 and started at once. *)
Definition demo_running_job : Job.t :=
  Job.mk "j1" demo_user "blackscholes" "running" demo_params ["AAPL"] "2024-01-01"
    "2024-01-31" "1d" "eodhd" true 0 (Some 0) None None None.

(** ** The running progress as section 4.6 of the specification states it *)

(** [min(0.9, elapsed / heuristicDuration)] with [elapsed] the time since
    the job started, at time [now]; a reference for
    [Api._calculate_job_progress], not code of the repository. *)
Definition running_progress_per_spec (now started_at duration : Z) : Q :=
  Qmin (9 # 10) (inject_Z (now - started_at) / inject_Z duration).

(** * Proofs *)

(** ** Preservation lemmas *)

#[export] Instance same_db_preorder : PreOrder same_db.
Proof.
  split.
  - intro w. reflexivity.
  - intros w1 w2 w3 H12 H23. unfold same_db in *. congruence.
Qed.

#[export] Instance unchanged_preorder : PreOrder unchanged.
Proof.
  split.
  - intro w. reflexivity.
  - intros w1 w2 w3 H12 H23. unfold unchanged in *. congruence.
Qed.

#[export] Instance calls_grow_preorder : PreOrder calls_grow.
Proof.
  split.
  - intro w. exists []. now rewrite app_nil_r.
  - intros w1 w2 w3 [l1 H12] [l2 H23]. exists (l1 ++ l2)%list.
    now rewrite H23, H12, app_assoc.
Qed.

Section Preserve.
Context {R : World -> World -> Prop} `{PreOrder World R}.

Lemma ret_pres {A} (a : A) : preserves R (ret a).
Proof. intro w. simpl. reflexivity. Qed.

Lemma raise_pres {A} (e : exc) : preserves R (A := A) (raise e).
Proof. intro w. simpl. reflexivity. Qed.

Lemma lift_pres {A} (o : outcome A) : preserves R (lift o).
Proof. intro w. simpl. reflexivity. Qed.

Lemma gets_pres {A} (f : World -> A) : preserves R (gets f).
Proof. intro w. simpl. reflexivity. Qed.

Lemma modify_pres (f : World -> World) :
  (forall w, R w (f w)) -> preserves R (modify f).
Proof. intros Hf w. apply Hf. Qed.

Lemma bind_pres {A B} (m : M A) (f : A -> M B) :
  preserves R m -> (forall a, preserves R (f a)) -> preserves R (bind m f).
Proof.
  intros Hm Hf w. unfold bind. specialize (Hm w).
  destruct (m w) as [[a|e] w']; simpl in *.
  - etransitivity; [exact Hm | apply Hf].
  - exact Hm.
Qed.

Lemma try_except_pres {A} (m : M A) (h : exc -> M A) :
  preserves R m -> (forall e, preserves R (h e)) -> preserves R (try_except m h).
Proof.
  intros Hm Hh w. unfold try_except. specialize (Hm w).
  destruct (m w) as [[a|e] w']; simpl in *.
  - exact Hm.
  - etransitivity; [exact Hm | apply Hh].
Qed.

Lemma py_get_pres d k default : preserves R (py_get d k default).
Proof. intro w. unfold py_get. destruct d; reflexivity. Qed.

Lemma py_getitem_pres d k : preserves R (py_getitem d k).
Proof.
  intro w. unfold py_getitem.
  destruct d; try reflexivity. destruct (assoc_get k kv); reflexivity.
Qed.

Lemma sign_all_pres env names : preserves R (Worker.sign_all env names).
Proof.
  induction names as [|n r IH]; cbn [Worker.sign_all]; [apply ret_pres|].
  apply bind_pres; [apply lift_pres|intro]. apply bind_pres; [exact IH|intro].
  apply ret_pres.
Qed.

End Preserve.

Ltac pres_step :=
  match goal with
  | |- preserves _ (bind _ _) => apply bind_pres; [ | intro ]
  | |- preserves _ (try_except _ _) => apply try_except_pres; [ | intro ]
  | |- preserves _ (ret _) => apply ret_pres
  | |- preserves _ (raise _) => apply raise_pres
  | |- preserves _ (lift _) => apply lift_pres
  | |- preserves _ (gets _) => apply gets_pres
  | |- preserves _ (py_get _ _ _) => apply py_get_pres
  | |- preserves _ (py_getitem _ _) => apply py_getitem_pres
  | |- preserves _ (modify _) => apply modify_pres; intro
  | |- preserves _ (Worker.gcs_put _ _ _) => solve [ eauto with pres ]
  | |- preserves _ (Worker.sign_all _ _) => apply sign_all_pres
  | |- preserves _ (match ?x with _ => _ end) => destruct x
  | |- preserves _ (let _ := _ in _) => cbv zeta
  end.

Ltac pres_tac := repeat pres_step.

Create HintDb pres.

(** The object store writes of the worker. *)
Lemma gcs_put_pres_db env key content : preserves same_db (Worker.gcs_put env key content).
Proof.
  unfold Worker.gcs_put. pres_tac; reflexivity.
Qed.

Lemma gcs_put_pres_calls env key content : preserves calls_grow (Worker.gcs_put env key content).
Proof.
  unfold Worker.gcs_put. pres_tac. exists []. simpl. now rewrite app_nil_r.
Qed.

#[export] Hint Resolve gcs_put_pres_db gcs_put_pres_calls : pres.

Ltac unfold_worker :=
  unfold Worker.process_pubsub_message, Worker.process_job,
    Worker.write_job_summary;
  unfold Worker.write_metrics_json, Worker.write_artifact_dataframe,
    Worker.write_artifact_csv, Worker.write_artifact_parquet,
    Worker.generate_signed_urls, Worker.log_call.


Lemma process_pubsub_message_same_db env req :
  preserves same_db (Worker.process_pubsub_message env req).
Proof. unfold_worker. pres_tac; reflexivity. Qed.

(** The worker's call log only grows. *)
Lemma process_job_calls_grow env jd : preserves calls_grow (Worker.process_job env jd).
Proof.
  unfold_worker. pres_tac; first [ eexists; reflexivity | exists []; simpl; now rewrite app_nil_r ].
Qed.

(** ** The worker does not read the job table *)

Lemma ret_blind {A} (a : A) : db_blind (ret a).
Proof. intros w d. reflexivity. Qed.

Lemma raise_blind {A} (e : exc) : db_blind (A := A) (raise e).
Proof. intros w d. reflexivity. Qed.

Lemma lift_blind {A} (o : outcome A) : db_blind (lift o).
Proof. intros w d. reflexivity. Qed.

Lemma gets_blind {A} (f : World -> A) :
  (forall w d, f (set_db d w) = f w) -> db_blind (gets f).
Proof. intros Hf w d. unfold gets. simpl. now rewrite Hf. Qed.

Lemma modify_blind (f : World -> World) :
  (forall w d, f (set_db d w) = set_db d (f w)) -> db_blind (modify f).
Proof. intros Hf w d. unfold modify. simpl. now rewrite Hf. Qed.

Lemma bind_blind {A B} (m : M A) (f : A -> M B) :
  db_blind m -> (forall a, db_blind (f a)) -> db_blind (bind m f).
Proof.
  intros Hm Hf w d. unfold bind. rewrite Hm.
  destruct (m w) as [[a|e] w']; simpl.
  - apply Hf.
  - reflexivity.
Qed.

Lemma try_except_blind {A} (m : M A) (h : exc -> M A) :
  db_blind m -> (forall e, db_blind (h e)) -> db_blind (try_except m h).
Proof.
  intros Hm Hh w d. unfold try_except. rewrite Hm.
  destruct (m w) as [[a|e] w']; simpl.
  - reflexivity.
  - apply Hh.
Qed.

Lemma py_get_blind d k default : db_blind (py_get d k default).
Proof. intros w d'. unfold py_get. destruct d; reflexivity. Qed.

Lemma py_getitem_blind d k : db_blind (py_getitem d k).
Proof.
  intros w d'. unfold py_getitem.
  destruct d; try reflexivity. destruct (assoc_get k kv); reflexivity.
Qed.

Lemma sign_all_blind env names : db_blind (Worker.sign_all env names).
Proof.
  induction names as [|n r IH]; cbn [Worker.sign_all]; [apply ret_blind|].
  apply bind_blind; [apply lift_blind|intro]. apply bind_blind; [exact IH|intro].
  apply ret_blind.
Qed.

Ltac blind_step :=
  match goal with
  | |- db_blind (bind _ _) => apply bind_blind; [ | intro ]
  | |- db_blind (try_except _ _) => apply try_except_blind; [ | intro ]
  | |- db_blind (ret _) => apply ret_blind
  | |- db_blind (raise _) => apply raise_blind
  | |- db_blind (lift _) => apply lift_blind
  | |- db_blind (gets _) => apply gets_blind; intros
  | |- db_blind (modify _) => apply modify_blind; intros
  | |- db_blind (py_get _ _ _) => apply py_get_blind
  | |- db_blind (py_getitem _ _) => apply py_getitem_blind
  | |- db_blind (Worker.sign_all _ _) => apply sign_all_blind
  | |- db_blind (match ?x with _ => _ end) => destruct x
  | |- db_blind (let _ := _ in _) => cbv zeta
  end.

Lemma process_pubsub_message_blind env req :
  db_blind (Worker.process_pubsub_message env req).
Proof.
  unfold_worker. unfold Worker.gcs_put. repeat blind_step; reflexivity.
Qed.
Lemma delivery_reduces_to_process_job env w request b data job_data :
  bearer request = true ->
  Worker.body request = Some b ->
  push_data b = Some data ->
  py_truthy data = true ->
  decode_payload env data = Ret job_data ->
  is_dict job_data = true ->
  Worker.process_pubsub_message env request w =
  (match fst (Worker.process_job env job_data w) with
   | Ret _ => Ret (JObj [("status", JStr "processed");
                         ("job_id", json_get job_data "job_id" JNull)])
   | Raise (HTTPException c d) => Raise (HTTPException c d)
   | Raise (PyException _ m) => Raise (HTTPException 500 ("Internal server error: " ++ m))
   end, snd (Worker.process_job env job_data w)).
Proof.
  intros Hauth Hbody Hdata Htruthy Hdec Hdict.
  destruct request as [auth body0]. unfold bearer in Hauth.
  cbn [Worker.authorization Worker.body] in *. subst body0.
  destruct b as [| | | | | kv]; try discriminate.
  destruct job_data as [| | | | | jkv]; try discriminate.
  unfold push_data in Hdata.
  destruct (json_get (JObj kv) "message" (JObj [])) as [| | | | | mkv] eqn:Hm; try discriminate.
  injection Hdata as Hdata.
  destruct auth as [h|]; [|discriminate].
  unfold Worker.process_pubsub_message.
  cbv beta iota delta [try_except bind ret py_get lift raise Worker.authorization Worker.body].
  rewrite Hauth. cbv beta iota. rewrite Hm. cbv beta iota. rewrite Hdata, Htruthy, Hdec.
  cbv beta iota delta [negb].
  destruct (Worker.process_job env (JObj jkv) w) as [[a|[c d|k m]] w'] eqn:E; reflexivity.
Qed.
(** ** The delivery handler, step by step *)

Lemma bind_py_get_dict {B} kv k d (f : json -> M B) w :
  bind (py_get (JObj kv) k d) f w = f (json_get (JObj kv) k d) w.
Proof. reflexivity. Qed.

Lemma try_log_calls {A} c (rest : unit -> M A) h w :
  (forall u, preserves calls_grow (rest u)) ->
  (forall e, preserves calls_grow (h e)) ->
  exists l, calls (snd (try_except (bind (Worker.log_call c) rest) h w)) =
            (calls w ++ c :: l)%list.
Proof.
  intros Hr Hh. unfold try_except, bind, Worker.log_call, modify.
  set (w1 := set_calls (calls w ++ [c])%list w).
  destruct (Hr tt w1) as [l1 E1].
  destruct (rest tt w1) as [[a|e] w2] eqn:E; simpl in E1 |- *.
  - exists l1. rewrite E1. simpl. rewrite <- app_assoc. reflexivity.
  - destruct (Hh e w2) as [l2 E2]. exists (l1 ++ l2)%list.
    rewrite E2, E1. simpl. rewrite <- !app_assoc. reflexivity.
Qed.

Ltac close_calls :=
  first [ eexists; reflexivity | exists []; simpl; now rewrite app_nil_r ].

Lemma process_job_logs_load env jd w :
  is_dict jd = true ->
  exists l, calls (snd (Worker.process_job env jd w)) =
            (calls w ++ CLoadPrices (json_get jd "job_id" JNull) :: l)%list.
Proof.
  intro Hd. destruct jd as [| | | | | kv]; try discriminate.
  unfold_worker.
  repeat (rewrite bind_py_get_dict; cbv beta).
  apply try_log_calls; intros; pres_tac; close_calls.
Qed.

Lemma undecodable_reduces env w request b data e :
  bearer request = true ->
  Worker.body request = Some b ->
  push_data b = Some data ->
  py_truthy data = true ->
  decode_payload env data = Raise e ->
  Worker.process_pubsub_message env request w =
  (Raise (HTTPException 400 ("Invalid message format: " ++ exc_str e)), w).
Proof.
  intros Hauth Hbody Hdata Htruthy Hdec.
  destruct request as [auth body0]. unfold bearer in Hauth.
  cbn [Worker.authorization Worker.body] in *. subst body0.
  destruct b as [| | | | | kv]; try discriminate.
  unfold push_data in Hdata.
  destruct (json_get (JObj kv) "message" (JObj [])) as [| | | | | mkv] eqn:Hm; try discriminate.
  injection Hdata as Hdata.
  destruct auth as [h|]; [|discriminate].
  unfold Worker.process_pubsub_message.
  cbv beta iota delta [try_except bind ret py_get lift raise Worker.authorization Worker.body].
  rewrite Hauth. cbv beta iota. rewrite Hm. cbv beta iota. rewrite Hdata, Htruthy, Hdec.
  reflexivity.
Qed.

(** ** C1: deliveries and the recorded job state *)

(** C1 (amended). The worker's delivery handler never consults the job
    table: for a delivery with a Bearer authorization header whose message
    data decodes to a JSON object, it calls the price load of the pipeline
    for the message's [job_id], its answer and its effects are the same
    whatever rows the table holds (whatever state the job is in, terminal or
    not), and it leaves the table unchanged. *)
Theorem delivery_ignores_job_state env w request b data job_data :
  bearer request = true ->
  Worker.body request = Some b ->
  push_data b = Some data ->
  py_truthy data = true ->
  decode_payload env data = Ret job_data ->
  is_dict job_data = true ->
  (exists l, calls (snd (Worker.process_pubsub_message env request w)) =
             (calls w ++ CLoadPrices (json_get job_data "job_id" JNull) :: l)%list) /\
  db (snd (Worker.process_pubsub_message env request w)) = db w /\
  (forall d, Worker.process_pubsub_message env request (set_db d w) =
             (fst (Worker.process_pubsub_message env request w),
              set_db d (snd (Worker.process_pubsub_message env request w)))).
Proof.
  intros Hauth Hbody Hdata Htruthy Hdec Hdict.
  split; [|split].
  - rewrite (delivery_reduces_to_process_job env w request b data job_data); auto.
    apply process_job_logs_load; exact Hdict.
  - apply process_pubsub_message_same_db.
  - intro d. apply process_pubsub_message_blind.
Qed.

Lemma delivery_ignores_job_state_witness :
  status_of (db (demo_world [demo_job "j1" "cancelled"])) "j1" = Some "cancelled" /\
  (exists l, calls (snd (Worker.process_pubsub_message env_ok (push_of payload_j1)
                           (demo_world [demo_job "j1" "cancelled"]))) =
             (calls (demo_world [demo_job "j1" "cancelled"]) ++
              CLoadPrices (json_get job_data_j1 "job_id" JNull) :: l)%list) /\
  db (snd (Worker.process_pubsub_message env_ok (push_of payload_j1)
             (demo_world [demo_job "j1" "cancelled"]))) =
  db (demo_world [demo_job "j1" "cancelled"]) /\
  (forall d, Worker.process_pubsub_message env_ok (push_of payload_j1)
               (set_db d (demo_world [demo_job "j1" "cancelled"])) =
             (fst (Worker.process_pubsub_message env_ok (push_of payload_j1)
                     (demo_world [demo_job "j1" "cancelled"])),
              set_db d (snd (Worker.process_pubsub_message env_ok (push_of payload_j1)
                               (demo_world [demo_job "j1" "cancelled"]))))).
Proof.
  split; [reflexivity|].
  apply (delivery_ignores_job_state env_ok (demo_world [demo_job "j1" "cancelled"])
           (push_of payload_j1) (JObj [("message", JObj [("data", JStr payload_j1)])])
           (JStr payload_j1) job_data_j1); reflexivity.
Defined.

(** C1 fails: the dispatch message of a cancelled job is processed: the
    pipeline's price load and model run are called and the delivery is
    acknowledged with 200, with the job still cancelled. *)
Lemma cancelled_job_delivery_runs_pipeline :
  status_of (db (demo_world [demo_job "j1" "cancelled"])) "j1" = Some "cancelled" /\
  calls (snd (Worker.process_pubsub_message env_ok (push_of payload_j1)
                (demo_world [demo_job "j1" "cancelled"]))) =
  [CLoadPrices (JStr "j1"); CRunModel (JStr "j1") (JStr "blackscholes")] /\
  serve (fst (Worker.process_pubsub_message env_ok (push_of payload_j1)
                (demo_world [demo_job "j1" "cancelled"]))) =
  Respond 200 (JObj [("status", JStr "processed"); ("job_id", JStr "j1")]) /\
  pubsub_acked (serve (fst (Worker.process_pubsub_message env_ok (push_of payload_j1)
                              (demo_world [demo_job "j1" "cancelled"])))) = true.
Proof. vm_compute. repeat split. Qed.

(** ** C5: undecodable payloads *)

(** C5 (amended). For a delivery with a Bearer authorization header whose
    message data cannot be decoded (base64, UTF-8 or JSON error), the
    handler answers HTTP 400 ["Invalid message format: "] followed by the
    error, without processing it (the world, collaborator calls included,
    is unchanged); 400 is not an acknowledgement, so the broker redelivers
    the message. *)
Theorem undecodable_payload_answers_400 env w request b data e :
  bearer request = true ->
  Worker.body request = Some b ->
  push_data b = Some data ->
  py_truthy data = true ->
  decode_payload env data = Raise e ->
  serve (fst (Worker.process_pubsub_message env request w)) =
    ErrorResponse 400 ("Invalid message format: " ++ exc_str e) /\
  pubsub_acked (serve (fst (Worker.process_pubsub_message env request w))) = false /\
  snd (Worker.process_pubsub_message env request w) = w.
Proof.
  intros Hauth Hbody Hdata Htruthy Hdec.
  rewrite (undecodable_reduces env w request b data e); auto.
Qed.

Lemma undecodable_payload_answers_400_witness :
  serve (fst (Worker.process_pubsub_message env_ok (push_of "ab") (demo_world []))) =
    ErrorResponse 400 ("Invalid message format: " ++ "Incorrect padding") /\
  pubsub_acked (serve (fst (Worker.process_pubsub_message env_ok (push_of "ab")
                              (demo_world [])))) = false /\
  snd (Worker.process_pubsub_message env_ok (push_of "ab") (demo_world [])) = demo_world [].
Proof.
  apply (undecodable_payload_answers_400 env_ok (demo_world []) (push_of "ab")
           (JObj [("message", JObj [("data", JStr "ab")])]) (JStr "ab")
           (PyException "binascii.Error" "Incorrect padding")); reflexivity.
Defined.

(** C5 fails: the payload ["ab"] (base64 with missing padding) is answered with 400, which a
    push subscription does not count as an acknowledgement. *)
Lemma malformed_payload_not_acked :
  serve (fst (Worker.process_pubsub_message env_ok (push_of "ab") (demo_world []))) =
    ErrorResponse 400 "Invalid message format: Incorrect padding" /\
  pubsub_acked (serve (fst (Worker.process_pubsub_message env_ok (push_of "ab")
                              (demo_world [])))) = false.
Proof. vm_compute. split; reflexivity. Qed.

(** ** The submit and cancel handlers, step by step *)

Lemma setattrs_id kw j :
  forallb Job.keeps_id kw = true -> Job.id (fold_left Job.setattr kw j) = Job.id j.
Proof.
  revert j. induction kw as [|a kw IH]; intros j H; [reflexivity|].
  cbn in H. apply andb_prop in H as [Ha H].
  cbn [fold_left]. rewrite (IH _ H). destruct j, a; try discriminate; reflexivity.
Qed.

Lemma update_status_row_id now j s kw :
  forallb Job.keeps_id kw = true ->
  Job.id (Job.update_status_row now j s kw) = Job.id j.
Proof.
  intro H. unfold Job.update_status_row. rewrite (setattrs_id _ _ H).
  destruct (_ && _); [reflexivity|]. destruct (_ && _); reflexivity.
Qed.

(** [update_status] with keywords that leave the primary key alone
    replaces the row in place. *)
Lemma update_status_eq self status kwargs w :
  forallb Job.keeps_id kwargs = true ->
  JobTable.update_status self status kwargs w =
    (Ret (Job.update_status_row (clock w) self status kwargs),
     set_db (map (fun j => if String.eqb (Job.id j) (Job.id self)
                           then Job.update_status_row (clock w) self status kwargs else j)
                 (db w)) w).
Proof.
  intro H. unfold JobTable.update_status, JobTable.commit, bind, gets, ret.
  rewrite (update_status_row_id _ _ _ _ H), String.eqb_refl. reflexivity.
Qed.

Lemma find_app_fresh {A} (p : A -> bool) (l : list A) (x : A) :
  existsb p l = false -> find p (l ++ [x])%list = if p x then Some x else None.
Proof.
  induction l as [|y l IH]; simpl; intro H.
  - reflexivity.
  - apply orb_false_iff in H as [Hy Hl]. rewrite Hy. now apply IH.
Qed.

Lemma find_map_ext {A} (p : A -> bool) (f : A -> A) (l : list A) :
  (forall x, p (f x) = p x) -> find p (map f l) = option_map f (find p l).
Proof.
  intro Hf. induction l as [|y l IH]; simpl; [reflexivity|].
  rewrite Hf. destruct (p y); [reflexivity | exact IH].
Qed.

Lemma publish_job_same_db pub jd : preserves same_db (publish_job pub jd).
Proof. unfold publish_job. pres_tac; reflexivity. Qed.

Lemma try_bind_same_db {A B} (m : M A) (k : A -> M B) h w a w1 :
  m w = (Ret a, w1) ->
  (forall a, preserves same_db (k a)) ->
  (forall e, preserves same_db (h e)) ->
  db (snd (try_except (bind m k) h w)) = db w1.
Proof.
  intros Hm Hk Hh. unfold try_except, bind. rewrite Hm.
  specialize (Hk a w1). destruct (k a w1) as [[b|e] w2]; simpl in *.
  - exact Hk.
  - rewrite (Hh e w2). exact Hk.
Qed.

(** What a submit does to the job table: nothing, or one queued row
    appended under the fresh id. *)
Lemma submit_db pub new_id user req w :
  db (snd (Submit.create_job pub new_id user req w)) = db w \/
  (existsb (fun j => String.eqb (Job.id j) new_id) (db w) = false /\
   exists job, db (snd (Submit.create_job pub new_id user req w)) = (db w ++ [job])%list /\
               Job.id job = new_id /\ Job.status job = "queued").
Proof.
  destruct (existsb (fun j => String.eqb (Job.id j) new_id) (db w)) eqn:Hfresh.
  - left. unfold Submit.create_job, try_except, bind, JobTable.create_job.
    rewrite Hfresh. reflexivity.
  - right. split; [reflexivity|]. eexists. split.
    + unfold Submit.create_job.
      eapply eq_trans; [eapply try_bind_same_db|].
      * unfold JobTable.create_job. rewrite Hfresh. reflexivity.
      * intro job. unfold validation_error.
        pres_tac; try reflexivity; apply publish_job_same_db.
      * intro e. unfold Submit.db_rollback. pres_tac.
      * reflexivity.
    + split; reflexivity.
Qed.

(** What a cancel does to the job table: nothing, or the queued row with
    the requested id replaced by its cancelled version. *)
Lemma cancel_db u user w :
  db (snd (Api.cancel_job u user w)) = db w \/
  exists job row,
    In job (db w) /\ Job.status job = "queued" /\
    Job.id row = Job.id job /\ Job.status row = "cancelled" /\
    db (snd (Api.cancel_job u user w)) =
      map (fun j => if String.eqb (Job.id j) (Job.id row) then row else j) (db w).
Proof.
  destruct u as [u|]; [|left; reflexivity].
  unfold Api.cancel_job, Api.parse_job_id, JobTable.get_job, gets, bind.
  cbv beta iota.
  destruct (find (fun j => String.eqb (Job.id j) u) (db w)) as [job|] eqn:Hf;
    [|left; reflexivity].
  destruct (negb (String.eqb (Job.user_id job) user)); [left; reflexivity|].
  destruct (String.eqb_spec (Job.status job) "queued") as [Hq|Hq]; [|left; reflexivity].
  right. pose proof (find_some _ _ Hf) as [Hin _].
  exists job, (Job.update_status_row (clock w) job "cancelled" []).
  assert (Hid : Job.id (Job.update_status_row (clock w) job "cancelled" []) = Job.id job)
    by (apply update_status_row_id; reflexivity).
  repeat split; auto.
  cbn [negb]. unfold bind. rewrite update_status_eq by reflexivity.
  rewrite Hid. reflexivity.
Qed.

(** ** Reading endpoints leave the table alone *)

Lemma map_m_pres {R : World -> World -> Prop} `{PreOrder World R} {A B}
    (f : A -> M B) (l : list A) :
  (forall x, preserves R (f x)) -> preserves R (Api.map_m f l).
Proof.
  intro Hf. induction l as [|x l IH]; simpl; pres_tac; auto.
Qed.

Lemma job_response_same_db job : preserves same_db (Api.job_response job).
Proof.
  unfold Api.job_response, Api.result_ref, Api._calculate_job_progress,
    JobStatusResponse_new.
  unfold JobType_of, validation_error.
  pres_tac.
Qed.

#[export] Hint Resolve publish_job_same_db job_response_same_db : pres.

Lemma get_job_same_db u user : preserves same_db (Api.get_job u user).
Proof.
  unfold Api.get_job, Api.parse_job_id, JobTable.get_job.
  pres_tac; auto with pres.
Qed.

Lemma list_jobs_same_db page size jt sf user :
  preserves same_db (Api.list_jobs page size jt sf user).
Proof.
  unfold Api.list_jobs, JobTable.get_user_jobs.
  pres_tac. apply map_m_pres. auto with pres.
Qed.

(** ** The order on tables *)

Lemma status_le_trans s1 s2 s3 :
  status_le s1 s2 -> status_le s2 s3 -> status_le s1 s3.
Proof.
  unfold status_le. intros [->|[-> ->]] [->|[H ->]]; auto; discriminate.
Qed.

Lemma Forall2_compose {A} (P Q S : A -> A -> Prop) l1 l2 l3 :
  (forall x y z, P x y -> Q y z -> S x z) ->
  Forall2 P l1 l2 -> Forall2 Q l2 l3 -> Forall2 S l1 l3.
Proof.
  intros Hc H12. revert l3.
  induction H12 as [|x y l1 l2 Hxy H12 IH]; intros l3 H23; inversion H23; subst.
  - constructor.
  - constructor; eauto.
Qed.

Lemma Forall_Forall2 {A} (P P' : A -> Prop) (Q : A -> A -> Prop) l l' :
  (forall x y, P x -> Q x y -> P' y) ->
  Forall P l -> Forall2 Q l l' -> Forall P' l'.
Proof.
  intros Hc HP HQ. induction HQ as [|x y l l' Hxy HQ IH]; inversion HP; subst.
  - constructor.
  - constructor; eauto.
Qed.

Lemma Forall2_map_r {A} (P : A -> A -> Prop) (f : A -> A) l :
  Forall (fun x => P x (f x)) l -> Forall2 P l (map f l).
Proof. induction 1; simpl; constructor; auto. Qed.

Lemma rows_le_refl d :
  Forall2 (fun j j' => Job.id j' = Job.id j /\ status_le (Job.status j) (Job.status j')) d d.
Proof.
  rewrite <- (map_id d) at 2. apply Forall2_map_r, Forall_forall.
  intros x _. split; [reflexivity | left; reflexivity].
Qed.

Lemma table_le_refl d : table_le d d.
Proof.
  exists d, []. rewrite app_nil_r. split; [reflexivity|split; [apply rows_le_refl|constructor]].
Qed.

Lemma table_le_trans d1 d2 d3 :
  table_le d1 d2 -> table_le d2 d3 -> table_le d1 d3.
Proof.
  intros (mid1 & fresh1 & -> & H1 & F1) (mid2 & fresh2 & -> & H2 & F2).
  apply Forall2_app_inv_l in H2 as (mA & mB & HA & HB & ->).
  exists mA, (mB ++ fresh2)%list. split; [now rewrite app_assoc|split].
  - eapply Forall2_compose; [|exact H1|exact HA].
    intros x y z [Hi1 Hs1] [Hi2 Hs2]. split; [congruence | exact (status_le_trans _ _ _ Hs1 Hs2)].
  - apply Forall_app. split; [|exact F2].
    eapply Forall_Forall2; [|exact F1|exact HB].
    intros x y Hx [_ Hy]. exact (status_le_trans _ _ _ Hx Hy).
Qed.

Lemma table_le_append d j :
  Job.status j = "queued" -> table_le d (d ++ [j])%list.
Proof.
  intro Hq. exists d, [j]. split; [reflexivity|split; [apply rows_le_refl|]].
  constructor; [|constructor]. rewrite Hq. left. reflexivity.
Qed.

Lemma ids_unique_same_row d x y :
  ids_unique d -> In x d -> In y d -> Job.id x = Job.id y -> x = y.
Proof.
  unfold ids_unique. induction d as [|a d IH]; simpl; [tauto|].
  intros Hnd Hx Hy Hxy. inversion Hnd as [|? ? Hnotin Hnd']; subst.
  destruct Hx as [<-|Hx], Hy as [<-|Hy]; auto.
  - exfalso. apply Hnotin. rewrite Hxy. now apply in_map.
  - exfalso. apply Hnotin. rewrite <- Hxy. now apply in_map.
Qed.

Lemma table_le_cancel d job row :
  ids_unique d -> In job d -> Job.status job = "queued" ->
  Job.id row = Job.id job -> Job.status row = "cancelled" ->
  table_le d (map (fun j => if String.eqb (Job.id j) (Job.id row) then row else j) d).
Proof.
  intros Hu Hin Hq Hid Hc.
  exists (map (fun j => if String.eqb (Job.id j) (Job.id row) then row else j) d), [].
  split; [now rewrite app_nil_r|split; [|constructor]].
  apply Forall2_map_r, Forall_forall. intros x Hx.
  destruct (String.eqb_spec (Job.id x) (Job.id row)) as [E|E].
  - assert (x = job) as -> by (apply (ids_unique_same_row d); congruence).
    split; [congruence|]. right. split; assumption.
  - split; [reflexivity | left; reflexivity].
Qed.

Lemma ids_unique_cancel d row :
  ids_unique d ->
  ids_unique (map (fun j => if String.eqb (Job.id j) (Job.id row) then row else j) d).
Proof.
  unfold ids_unique. rewrite map_map.
  replace (map (fun x => Job.id (if String.eqb (Job.id x) (Job.id row) then row else x)) d)
    with (map Job.id d); [exact (fun H => H)|].
  apply map_ext. intro x. destruct (String.eqb_spec (Job.id x) (Job.id row)); auto.
Qed.

Lemma NoDup_snoc {A} (l : list A) (a : A) :
  NoDup l -> ~ In a l -> NoDup (l ++ [a])%list.
Proof.
  induction l as [|x l IH]; simpl; intros Hnd Hn.
  - constructor; [tauto | constructor].
  - inversion Hnd; subst. constructor.
    + rewrite in_app_iff. simpl. intros [H|[H|H]]; [tauto | apply Hn; auto | exact H].
    + apply IH; auto.
Qed.

Lemma ids_unique_append d j :
  ids_unique d ->
  existsb (fun x => String.eqb (Job.id x) (Job.id j)) d = false ->
  ids_unique (d ++ [j])%list.
Proof.
  unfold ids_unique. rewrite map_app. intros Hu Hf. apply NoDup_snoc; [exact Hu|].
  intro Hin. apply in_map_iff in Hin as (x & Hx & Hin).
  assert (existsb (fun x => String.eqb (Job.id x) (Job.id j)) d = true) as Ht.
  { apply existsb_exists. exists x. split; [exact Hin | now apply String.eqb_eq]. }
  congruence.
Qed.

(** One step: the table is unchanged, gains one queued row under a fresh
    id, or has a queued row replaced by its cancelled version. *)
Lemma app_step_table w w' :
  ids_unique (db w) -> app_step w w' ->
  table_le (db w) (db w') /\ ids_unique (db w').
Proof.
  intros Hu Hs.
  assert (db w' = db w -> table_le (db w) (db w') /\ ids_unique (db w')) as Hsame
    by (intros ->; split; [apply table_le_refl | exact Hu]).
  destruct Hs.
  - destruct (submit_db pub new_id user req w) as [E | (Hf & job & E & Hid & Hq)];
      [now apply Hsame|].
    rewrite E. split; [now apply table_le_append|].
    apply ids_unique_append; [exact Hu|]. now rewrite Hid.
  - apply Hsame, get_job_same_db.
  - apply Hsame, list_jobs_same_db.
  - destruct (cancel_db u user w) as [E | (job & row & Hin & Hq & Hid & Hc & E)];
      [now apply Hsame|].
    rewrite E. split; [now apply (table_le_cancel _ job row) | now apply ids_unique_cancel].
  - apply Hsame, process_pubsub_message_same_db.
  - now apply Hsame.
Qed.

(** ** C3: status transitions *)

(** C3 (amended). [Job.update_status], and [set_error] and [set_results]
    built on it, check no transition: they write any status over any
    status. The only status write the handlers make is [cancel_job]'s
    queued to cancelled (the worker does not touch the table), so along
    every run of the API's and the worker's handlers from a table with
    distinct ids, each row keeps its status or goes from queued to
    cancelled, every row added starts queued, and ids stay distinct. *)
Theorem status_moves_only_queued_to_cancelled w w' :
  ids_unique (db w) -> app_steps w w' ->
  table_le (db w) (db w') /\ ids_unique (db w').
Proof.
  intros Hu Hs. induction Hs as [w|w1 w2 w3 H12 H23 IH].
  - split; [apply table_le_refl | exact Hu].
  - destruct (app_step_table w1 w2 Hu H12) as [Hle Hu2].
    destruct (IH Hu2) as [Hle' Hu3].
    split; [exact (table_le_trans _ _ _ Hle Hle') | exact Hu3].
Qed.

Lemma status_moves_only_queued_to_cancelled_witness :
  ids_unique (db (demo_world [])) /\
  table_le (db (demo_world []))
    (db (snd (Api.cancel_job (Some "j1") demo_user
                (snd (Submit.create_job pub_ok "j1" demo_user demo_request (demo_world [])))))) /\
  ids_unique
    (db (snd (Api.cancel_job (Some "j1") demo_user
                (snd (Submit.create_job pub_ok "j1" demo_user demo_request (demo_world [])))))).
Proof.
  assert (Hu : ids_unique (db (demo_world []))) by constructor.
  split; [exact Hu|].
  apply (status_moves_only_queued_to_cancelled (demo_world [])); [exact Hu|].
  exact (steps_cons _ _ _ (step_create pub_ok "j1" demo_user demo_request (demo_world []))
           (steps_cons _ _ _ (step_cancel (Some "j1") demo_user _) (steps_refl _))).
Defined.

(** C3 fails: [set_error] moves a cancelled row to failed, and
    [update_status] moves a completed row back to queued. *)
Lemma update_status_leaves_terminal_states :
  status_of (db (snd (JobTable.set_error (demo_job "j1" "cancelled") "late failure"
                        (demo_world [demo_job "j1" "cancelled"])))) "j1" = Some "failed" /\
  status_of (db (snd (JobTable.update_status (demo_job "j1" "completed") "queued" []
                        (demo_world [demo_job "j1" "completed"])))) "j1" = Some "queued".
Proof. vm_compute. split; reflexivity. Qed.

(** ** C4: submit *)

(** C4 (amended). A successful submit appends exactly one row to the job
    table, under the drawn id and in state queued, answers with that id and
    status queued, and publishes one dispatch message carrying the same job
    id when the publisher is available, and none when it is not (the
    publisher then skips the publish and the submit still succeeds). *)
Theorem submit_creates_one_queued_record pub new_id user req w resp :
  fst (Submit.create_job pub new_id user req w) = Ret resp ->
  exists job,
    db (snd (Submit.create_job pub new_id user req w)) = (db w ++ [job])%list /\
    Job.id job = new_id /\ Job.status job = "queued" /\
    c_job_id resp = new_id /\ c_status resp = QUEUED /\
    published (snd (Submit.create_job pub new_id user req w)) =
      (published w ++ (if publisher_available pub then [Submit.message_data job req] else []))%list /\
    json_get (Submit.message_data job req) "job_id" JNull = JStr new_id.
Proof.
  unfold Submit.create_job, try_except, bind, JobTable.create_job.
  destruct (existsb (fun j => String.eqb (Job.id j) new_id) (db w)) eqn:Hfresh.
  - cbn. discriminate.
  - unfold publish_job.
    destruct (publisher_available pub) eqn:Hav; cbn [negb].
    + destruct (publish_result pub _) as [mid|e] eqn:Hpub.
      * cbn. intro H. injection H as <-. eexists. repeat split; reflexivity.
      * cbn. discriminate.
    + cbn. intro H. injection H as <-. eexists. repeat split; try reflexivity.
      cbn. now rewrite app_nil_r.
Qed.

Lemma submit_creates_one_queued_record_witness :
  fst (Submit.create_job pub_ok "j1" demo_user demo_request (demo_world [])) =
    Ret (mkJobCreateResponse "j1" QUEUED "Job queued successfully" (Some 12)) /\
  exists job,
    db (snd (Submit.create_job pub_ok "j1" demo_user demo_request (demo_world []))) =
      (db (demo_world []) ++ [job])%list /\
    Job.id job = "j1" /\ Job.status job = "queued" /\
    c_job_id (mkJobCreateResponse "j1" QUEUED "Job queued successfully" (Some 12)) = "j1" /\
    c_status (mkJobCreateResponse "j1" QUEUED "Job queued successfully" (Some 12)) = QUEUED /\
    published (snd (Submit.create_job pub_ok "j1" demo_user demo_request (demo_world []))) =
      (published (demo_world []) ++
        (if publisher_available pub_ok then [Submit.message_data job demo_request] else []))%list /\
    json_get (Submit.message_data job demo_request) "job_id" JNull = JStr "j1".
Proof.
  assert (H : fst (Submit.create_job pub_ok "j1" demo_user demo_request (demo_world [])) =
                Ret (mkJobCreateResponse "j1" QUEUED "Job queued successfully" (Some 12)))
    by reflexivity.
  split; [exact H|].
  exact (submit_creates_one_queued_record pub_ok "j1" demo_user demo_request (demo_world []) _ H).
Defined.

(** C4 fails: with the publisher unavailable (no [GCP_PROJECT]), the
    submit succeeds and the row is queued, yet no message is published. *)
Lemma submit_without_publisher_publishes_nothing :
  fst (Submit.create_job pub_disabled "j1" demo_user demo_request (demo_world [])) =
    Ret (mkJobCreateResponse "j1" QUEUED "Job queued successfully" (Some 12)) /\
  status_of (db (snd (Submit.create_job pub_disabled "j1" demo_user demo_request
                        (demo_world [])))) "j1" = Some "queued" /\
  published (snd (Submit.create_job pub_disabled "j1" demo_user demo_request
                    (demo_world []))) = [].
Proof. vm_compute. repeat split. Qed.

(** ** C6: a failed publish *)

(** C6. When the row is written (the drawn id is fresh) and the publish of
    the dispatch message raises, the submit fails with HTTP 500, the row
    stays in the table in state queued (the rollback has nothing left to
    undo), and no message is published. *)
Theorem publish_failure_keeps_queued_record pub new_id user req w k m :
  existsb (fun j => String.eqb (Job.id j) new_id) (db w) = false ->
  publisher_available pub = true ->
  (forall jd, publish_result pub jd = Raise (PyException k m)) ->
  fst (Submit.create_job pub new_id user req w) =
    Raise (HTTPException 500 ("Failed to create job: " ++ m)) /\
  status_of (db (snd (Submit.create_job pub new_id user req w))) new_id = Some "queued" /\
  (exists job, db (snd (Submit.create_job pub new_id user req w)) = (db w ++ [job])%list /\
               Job.id job = new_id /\ Job.status job = "queued") /\
  published (snd (Submit.create_job pub new_id user req w)) = published w.
Proof.
  intros Hfresh Hav Hpub.
  unfold Submit.create_job, try_except, bind, JobTable.create_job, publish_job.
  rewrite Hfresh, Hav, Hpub. cbn [negb].
  split; [reflexivity|]. split; [|split; [eexists; repeat split | reflexivity]].
  unfold status_of. cbn [snd db set_db Submit.db_rollback ret raise].
  rewrite find_app_fresh by exact Hfresh. cbn. now rewrite String.eqb_refl.
Qed.

Lemma publish_failure_keeps_queued_record_witness :
  existsb (fun j => String.eqb (Job.id j) "j1") (db (demo_world [])) = false /\
  publisher_available pub_failing = true /\
  fst (Submit.create_job pub_failing "j1" demo_user demo_request (demo_world [])) =
    Raise (HTTPException 500 ("Failed to create job: " ++ "publish timed out")) /\
  status_of (db (snd (Submit.create_job pub_failing "j1" demo_user demo_request
                        (demo_world [])))) "j1" = Some "queued" /\
  (exists job, db (snd (Submit.create_job pub_failing "j1" demo_user demo_request
                          (demo_world []))) = (db (demo_world []) ++ [job])%list /\
               Job.id job = "j1" /\ Job.status job = "queued") /\
  published (snd (Submit.create_job pub_failing "j1" demo_user demo_request (demo_world []))) =
    published (demo_world []).
Proof.
  split; [reflexivity|]. split; [reflexivity|].
  apply (publish_failure_keeps_queued_record pub_failing "j1" demo_user demo_request
           (demo_world []) "DeadlineExceeded" "publish timed out");
    [reflexivity | reflexivity | intro jd; reflexivity].
Defined.

(** ** C7: cancel *)

(** C7. For a stored job owned by the caller, cancel succeeds exactly when
    the job is queued, and then the stored status becomes cancelled;
    otherwise it fails with HTTP 400 ["Only queued jobs can be cancelled"]
    and the world is unchanged. *)
Theorem cancel_succeeds_iff_queued u user w job :
  find (fun j => String.eqb (Job.id j) u) (db w) = Some job ->
  Job.user_id job = user ->
  ((exists r, fst (Api.cancel_job (Some u) user w) = Ret r) <-> Job.status job = "queued") /\
  (Job.status job = "queued" ->
     status_of (db (snd (Api.cancel_job (Some u) user w))) u = Some "cancelled") /\
  (Job.status job <> "queued" ->
     Api.cancel_job (Some u) user w =
       (Raise (HTTPException 400 "Only queued jobs can be cancelled"), w)).
Proof.
  intros Hf <-.
  pose proof (find_some _ _ Hf) as [_ Hid]. apply String.eqb_eq in Hid.
  unfold Api.cancel_job, Api.parse_job_id, JobTable.get_job, gets, bind.
  cbv beta iota. rewrite Hf, String.eqb_refl. cbn [negb].
  destruct (String.eqb_spec (Job.status job) "queued") as [Hq|Hq]; cbn [negb].
  - rewrite update_status_eq by reflexivity.
    split; [split; [intros _; exact Hq | intros _; eexists; reflexivity]|].
    split; [|intro Hn; contradiction].
    intros _. unfold status_of. unfold ret. cbn [snd db set_db].
    rewrite find_map_ext.
    + rewrite Hf. cbn. now rewrite String.eqb_refl.
    + intro x. destruct (String.eqb (Job.id x) _) eqn:E; [|reflexivity].
      apply String.eqb_eq in E. rewrite E. reflexivity.
  - split; [split; [intros [r Hr]; discriminate | intro; contradiction]|].
    split; [intro; contradiction | intros _; reflexivity].
Qed.

Lemma cancel_succeeds_iff_queued_witness :
  find (fun j => String.eqb (Job.id j) "j1") (db (demo_world [demo_job "j1" "queued"])) =
    Some (demo_job "j1" "queued") /\
  ((exists r, fst (Api.cancel_job (Some "j1") demo_user (demo_world [demo_job "j1" "queued"])) = Ret r)
     <-> Job.status (demo_job "j1" "queued") = "queued") /\
  (Job.status (demo_job "j1" "queued") = "queued" ->
     status_of (db (snd (Api.cancel_job (Some "j1") demo_user
                           (demo_world [demo_job "j1" "queued"])))) "j1" = Some "cancelled") /\
  (Job.status (demo_job "j1" "queued") <> "queued" ->
     Api.cancel_job (Some "j1") demo_user (demo_world [demo_job "j1" "queued"]) =
       (Raise (HTTPException 400 "Only queued jobs can be cancelled"),
        demo_world [demo_job "j1" "queued"])).
Proof.
  split; [reflexivity|].
  apply (cancel_succeeds_iff_queued "j1" demo_user (demo_world [demo_job "j1" "queued"])
           (demo_job "j1" "queued")); reflexivity.
Defined.

(** ** C8: progress *)

(** C8, as the code computes it: queued gives 0, completed 1, failed 0,
    cancelled (any other status) no value; a running job with a start time
    gives [min(0.9, elapsed / duration)] where [elapsed] is
    [started_at - created_at], the time the job waited in the queue, and
    not the time since it started: the value does not depend on the clock
    and stays fixed while the job runs. *)
Theorem progress_uses_queue_wait job w :
  (Job.status job = "queued" -> Api._calculate_job_progress job w = (Ret (Some 0%Q), w)) /\
  (Job.status job = "completed" -> Api._calculate_job_progress job w = (Ret (Some 1%Q), w)) /\
  (Job.status job = "failed" -> Api._calculate_job_progress job w = (Ret (Some 0%Q), w)) /\
  (Job.status job = "cancelled" -> Api._calculate_job_progress job w = (Ret None, w)) /\
  (forall s jt,
     Job.status job = "running" -> Job.started_at job = Some s ->
     JobType_of (Job.type job) w = (Ret jt, w) ->
     Api._calculate_job_progress job w =
       (Ret (Some (running_progress_per_spec s (Job.created_at job)
                     (Api._estimate_job_duration jt
                        (Z.of_nat (length (Job.symbols job)))))), w)).
Proof.
  unfold Api._calculate_job_progress.
  split; [intro H; now rewrite H|]. split; [intro H; now rewrite H|].
  split; [intro H; now rewrite H|]. split; [intro H; now rewrite H|].
  intros s jt H Hs Hjt. rewrite H, Hs. cbn -[JobType_of].
  unfold bind. rewrite Hjt. reflexivity.
Qed.

Lemma progress_uses_queue_wait_witness :
  Job.status demo_running_job = "running" /\
  Api._calculate_job_progress demo_running_job (demo_world [demo_running_job]) =
    (Ret (Some (running_progress_per_spec 0 0 (Api._estimate_job_duration BLACK_SCHOLES 1))),
     demo_world [demo_running_job]).
Proof.
  split; [reflexivity|].
  destruct (progress_uses_queue_wait demo_running_job (demo_world [demo_running_job]))
    as (_ & _ & _ & _ & H).
  apply (H 0 BLACK_SCHOLES); reflexivity.
Defined.

(** C8 diverges: a Black-Scholes job on one symbol (estimated 12 s)
    created and started at 0 and still running at 100 gets progress 0 from
    the code, while the time since its start gives [min(0.9, 100/12)] = 0.9. *)
Lemma progress_diverges_from_time_since_start :
  Api._estimate_job_duration BLACK_SCHOLES 1 = 12 /\
  clock (demo_world [demo_running_job]) = 100 /\
  (exists q, fst (Api._calculate_job_progress demo_running_job (demo_world [demo_running_job]))
               = Ret (Some q) /\ q == 0)%Q /\
  (running_progress_per_spec 100 0 12 == 9 # 10)%Q.
Proof.
  split; [reflexivity|]. split; [reflexivity|]. split.
  - eexists. split; [reflexivity|]. vm_compute. reflexivity.
  - vm_compute. reflexivity.
Qed.

(** ** C9: a cancelled job's view *)

Lemma job_response_cancelled job w :
  Job.status job = "cancelled" -> exists e, fst (Api.job_response job w) = Raise e.
Proof.
  intro Hc. unfold Api.job_response, bind.
  destruct (JobType_of (Job.type job) w) as [[jt|e] w1]; [|eexists; reflexivity].
  destruct (Api.result_ref job "metrics" w1) as [[m|e] w2]; [|eexists; reflexivity].
  destruct (Api.result_ref job "urls" w2) as [[r|e] w3]; [|eexists; reflexivity].
  unfold Api._calculate_job_progress. rewrite Hc. cbn.
  unfold JobStatusResponse_new. cbn. eexists. reflexivity.
Qed.

(** C9, as the code behaves: [JobStatus] has no cancelled member, so for a
    stored job owned by the caller in state cancelled (the state
    [cancel_job] writes), [get_job] raises instead of returning a view;
    FastAPI answers such an exception with HTTP 500 (a pydantic
    [ValidationError] when the type and result fields are well formed). *)
Theorem get_job_fails_on_cancelled u user w job :
  find (fun j => String.eqb (Job.id j) u) (db w) = Some job ->
  Job.user_id job = user ->
  Job.status job = "cancelled" ->
  exists e, fst (Api.get_job (Some u) user w) = Raise e.
Proof.
  intros Hf <- Hc.
  unfold Api.get_job, Api.parse_job_id, JobTable.get_job, gets.
  unfold bind at 1. cbv beta iota. rewrite Hf, String.eqb_refl. cbn [negb].
  now apply job_response_cancelled.
Qed.

Lemma get_job_fails_on_cancelled_witness :
  find (fun j => String.eqb (Job.id j) "j1") (db (demo_world [demo_job "j1" "cancelled"])) =
    Some (demo_job "j1" "cancelled") /\
  exists e, fst (Api.get_job (Some "j1") demo_user (demo_world [demo_job "j1" "cancelled"])) =
              Raise e.
Proof.
  split; [reflexivity|].
  apply (get_job_fails_on_cancelled "j1" demo_user (demo_world [demo_job "j1" "cancelled"])
           (demo_job "j1" "cancelled")); reflexivity.
Defined.

(** C9 diverges: after a successful cancel of the caller's queued job,
    reading the job back raises a validation error on [status] and is
    answered with HTTP 500 instead of a view with status cancelled. *)
Lemma cancelled_job_view_is_server_error :
  fst (Api.cancel_job (Some "j1") demo_user (demo_world [demo_job "j1" "queued"])) =
    Ret (JObj [("message", JStr "Job cancelled successfully")]) /\
  fst (Api.get_job (Some "j1") demo_user
         (snd (Api.cancel_job (Some "j1") demo_user (demo_world [demo_job "j1" "queued"])))) =
    Raise (PyException "ValidationError" "status") /\
  serve (fst (Api.get_job (Some "j1") demo_user
                (snd (Api.cancel_job (Some "j1") demo_user
                        (demo_world [demo_job "j1" "queued"]))))) =
    ErrorResponse 500 "Internal Server Error".
Proof. vm_compute. repeat split. Qed.

(** ** C10: listing *)

(** C10. When [list_jobs] returns, its jobs are the views of the rows of
    the requested page of the caller's rows (newest first), filtered by
    type and status only after the page is cut; its total is the count of
    all the caller's rows and [has_next] is [page * size < total], both
    unfiltered. *)
Theorem list_jobs_filters_page_only page size jt sf user w resp :
  fst (Api.list_jobs page size jt sf user w) = Ret resp ->
  fst (Api.map_m Api.job_response
         (if Job.is_some jt || Api.status_filter_active sf
          then filter (Api.keep_job jt sf)
                 (firstn size (skipn ((page - 1) * size)
                    (JobTable.sort_created_desc (tie_rank w ((page - 1) * size) size)
                       (JobTable.user_rows user (db w)))))
          else firstn size (skipn ((page - 1) * size)
                 (JobTable.sort_created_desc (tie_rank w ((page - 1) * size) size)
                    (JobTable.user_rows user (db w)))))
         w) = Ret (l_jobs resp) /\
  l_total resp = length (JobTable.user_rows user (db w)) /\
  l_has_next resp = Nat.ltb (page * size) (length (JobTable.user_rows user (db w))).
Proof.
  unfold Api.list_jobs, JobTable.get_user_jobs, gets, bind at 1. cbv beta iota zeta.
  unfold bind.
  destruct (Api.map_m Api.job_response _ w) as [[l|e] w1]; cbn; [|discriminate].
  intro H. injection H as <-. repeat split.
Qed.

Lemma list_jobs_filters_page_only_witness :
  fst (Api.list_jobs 1 2 None (Some "queued") demo_user
         (demo_world [demo_job_at "j3" "queued" 3; demo_job_at "j2" "cancelled" 2;
                      demo_job_at "j1" "queued" 1])) =
    Ret (mkJobListResponse
           [mkJobStatusResponse "j3" demo_user BLACK_SCHOLES QUEUED ["AAPL"] "2024-01-01"
              "2024-01-31" "1d" "eodhd" true demo_params 3 None None JNull JNull None
              (Some 0%Q)]
           3 1 2 true) /\
  (length [demo_job_at "j3" "queued" 3] < 2 < length (JobTable.user_rows demo_user
     [demo_job_at "j3" "queued" 3; demo_job_at "j2" "cancelled" 2;
      demo_job_at "j1" "queued" 1]))%nat /\
  fst (Api.map_m Api.job_response
         (if Job.is_some (@None JobType) || Api.status_filter_active (Some "queued")
          then filter (Api.keep_job None (Some "queued"))
                 (firstn 2 (skipn ((1 - 1) * 2)%nat
                    (JobTable.sort_created_desc (fun _ => 0) (JobTable.user_rows demo_user
                       (db (demo_world [demo_job_at "j3" "queued" 3;
                                        demo_job_at "j2" "cancelled" 2;
                                        demo_job_at "j1" "queued" 1]))))))
          else firstn 2 (skipn ((1 - 1) * 2)%nat
                 (JobTable.sort_created_desc (fun _ => 0) (JobTable.user_rows demo_user
                    (db (demo_world [demo_job_at "j3" "queued" 3;
                                     demo_job_at "j2" "cancelled" 2;
                                     demo_job_at "j1" "queued" 1]))))))
         (demo_world [demo_job_at "j3" "queued" 3; demo_job_at "j2" "cancelled" 2;
                      demo_job_at "j1" "queued" 1])) =
    Ret [mkJobStatusResponse "j3" demo_user BLACK_SCHOLES QUEUED ["AAPL"] "2024-01-01"
           "2024-01-31" "1d" "eodhd" true demo_params 3 None None JNull JNull None
           (Some 0%Q)] /\
  3%nat = length (JobTable.user_rows demo_user
            (db (demo_world [demo_job_at "j3" "queued" 3; demo_job_at "j2" "cancelled" 2;
                             demo_job_at "j1" "queued" 1]))) /\
  true = Nat.ltb (1 * 2)%nat (length (JobTable.user_rows demo_user
            (db (demo_world [demo_job_at "j3" "queued" 3; demo_job_at "j2" "cancelled" 2;
                             demo_job_at "j1" "queued" 1])))).
Proof.
  assert (H : fst (Api.list_jobs 1 2 None (Some "queued") demo_user
         (demo_world [demo_job_at "j3" "queued" 3; demo_job_at "j2" "cancelled" 2;
                      demo_job_at "j1" "queued" 1])) =
    Ret (mkJobListResponse
           [mkJobStatusResponse "j3" demo_user BLACK_SCHOLES QUEUED ["AAPL"] "2024-01-01"
              "2024-01-31" "1d" "eodhd" true demo_params 3 None None JNull JNull None
              (Some 0%Q)]
           3 1 2 true)) by reflexivity.
  split; [exact H|]. split; [cbn; lia|].
  exact (list_jobs_filters_page_only 1 2 None (Some "queued") demo_user _ _ H).
Defined.

(** * Further properties of the code *)

(** ** Paging the user's jobs ([Job.get_user_jobs]) *)

Lemma insert_desc_perm rank j l :
  Permutation (JobTable.insert_desc rank j l) (j :: l).
Proof.
  induction l as [|x r IH]; simpl; [reflexivity|].
  destruct (_ || _); [reflexivity|].
  rewrite IH. apply perm_swap.
Qed.

Lemma sort_created_desc_perm rank l : Permutation (JobTable.sort_created_desc rank l) l.
Proof.
  induction l as [|x r IH]; simpl; [reflexivity|].
  rewrite insert_desc_perm. now apply perm_skip.
Qed.

(** The test of [insert_desc] and [insert_asc], read on [created_at]. *)
Lemma rank_test_le (a b : Z) (ra rb : Z) :
  (if Z.ltb b a || Z.eqb b a && Z.ltb ra rb then b <= a else a <= b).
Proof.
  destruct (Z.ltb_spec b a); cbn; [lia|].
  destruct (Z.eqb_spec b a); cbn; [destruct (Z.ltb ra rb); lia | lia].
Qed.

Lemma insert_desc_hd rank x j r :
  HdRel newer_first x r -> newer_first x j ->
  HdRel newer_first x (JobTable.insert_desc rank j r).
Proof.
  destruct r as [|y r]; simpl; intros Hr Hj; [constructor; exact Hj|].
  destruct (_ || _); constructor; [exact Hj|].
  now inversion Hr.
Qed.

Lemma insert_desc_sorted rank j l :
  Sorted newer_first l -> Sorted newer_first (JobTable.insert_desc rank j l).
Proof.
  induction l as [|x r IH]; simpl; intro Hs; [repeat constructor|].
  inversion Hs as [|? ? Hr Hhd]; subst.
  pose proof (rank_test_le (Job.created_at j) (Job.created_at x)
                (rank (Job.id j)) (rank (Job.id x))) as Ht.
  destruct (_ || _).
  - constructor; [exact Hs | constructor; exact Ht].
  - constructor; [now apply IH | apply insert_desc_hd; [exact Hhd | exact Ht]].
Qed.

Lemma sort_created_desc_sorted rank l :
  Sorted newer_first (JobTable.sort_created_desc rank l).
Proof.
  induction l as [|x r IH]; simpl; [constructor | now apply insert_desc_sorted].
Qed.

Lemma insert_asc_perm rank j l :
  Permutation (JobTable.insert_asc rank j l) (j :: l).
Proof.
  induction l as [|x r IH]; simpl; [reflexivity|].
  destruct (_ || _); [reflexivity|].
  rewrite IH. apply perm_swap.
Qed.

Lemma sort_created_asc_perm rank l : Permutation (JobTable.sort_created_asc rank l) l.
Proof.
  induction l as [|x r IH]; simpl; [reflexivity|].
  rewrite insert_asc_perm. now apply perm_skip.
Qed.

Lemma insert_asc_hd rank x j r :
  HdRel older_first x r -> older_first x j ->
  HdRel older_first x (JobTable.insert_asc rank j r).
Proof.
  destruct r as [|y r]; simpl; intros Hr Hj; [constructor; exact Hj|].
  destruct (_ || _); constructor; [exact Hj|].
  now inversion Hr.
Qed.

Lemma insert_asc_sorted rank j l :
  Sorted older_first l -> Sorted older_first (JobTable.insert_asc rank j l).
Proof.
  induction l as [|x r IH]; simpl; intro Hs; [repeat constructor|].
  inversion Hs as [|? ? Hr Hhd]; subst.
  pose proof (rank_test_le (Job.created_at x) (Job.created_at j)
                (rank (Job.id j)) (rank (Job.id x))) as Ht.
  destruct (_ || _).
  - constructor; [exact Hs | constructor; exact Ht].
  - constructor; [now apply IH | apply insert_asc_hd; [exact Hhd | exact Ht]].
Qed.

Lemma sort_created_asc_sorted rank l :
  Sorted older_first (JobTable.sort_created_asc rank l).
Proof.
  induction l as [|x r IH]; simpl; [constructor | now apply insert_asc_sorted].
Qed.

Lemma Sorted_skipn {A} (R : A -> A -> Prop) n l : Sorted R l -> Sorted R (skipn n l).
Proof.
  revert l; induction n as [|n IH]; intros [|x l] Hs; simpl; auto.
  apply IH. now inversion Hs.
Qed.

Lemma Sorted_firstn {A} (R : A -> A -> Prop) n l : Sorted R l -> Sorted R (firstn n l).
Proof.
  revert l; induction n as [|n IH]; intros [|x l] Hs; simpl; auto.
  inversion Hs as [|? ? Hl Hhd]; subst. constructor; [now apply IH|].
  destruct n, l; simpl; constructor. now inversion Hhd.
Qed.

Lemma in_firstn {A} n (l : list A) x : In x (firstn n l) -> In x l.
Proof. intro H. rewrite <- (firstn_skipn n l). apply in_or_app. now left. Qed.

Lemma in_skipn {A} n (l : list A) x : In x (skipn n l) -> In x l.
Proof. intro H. rewrite <- (firstn_skipn n l). apply in_or_app. now right. Qed.

Lemma in_user_rows user d j :
  In j (JobTable.user_rows user d) -> In j d /\ Job.user_id j = user.
Proof.
  unfold JobTable.user_rows. rewrite filter_In. intros [H E].
  split; [exact H | now apply String.eqb_eq].
Qed.

(** X1. A page (numbered from 1) of [Job.get_user_jobs] reads the table without changing
    it; its rows are rows of the table owned by the user, newest first,
    and there are [min(size, total - (page-1)*size)] of them, where
    [total] counts all the user's rows (so a page at or past the end is
    empty). *)
Theorem get_user_jobs_page user page size w jobs total :
  (1 <= page)%nat ->
  fst (JobTable.get_user_jobs user page size w) = Ret (jobs, total) ->
  snd (JobTable.get_user_jobs user page size w) = w /\
  total = length (JobTable.user_rows user (db w)) /\
  (forall j, In j jobs -> In j (db w) /\ Job.user_id j = user) /\
  Sorted newer_first jobs /\
  length jobs = Nat.min size (total - (page - 1) * size)%nat.
Proof.
  unfold JobTable.get_user_jobs, gets. cbn. intros _ H. injection H as <- <-.
  split; [reflexivity|]. split; [reflexivity|]. split; [|split].
  - intros j Hj. apply in_user_rows.
    apply in_firstn, in_skipn in Hj.
    exact (Permutation_in _ (sort_created_desc_perm _ _) Hj).
  - apply Sorted_firstn, Sorted_skipn, sort_created_desc_sorted.
  - rewrite length_firstn, length_skipn.
    now rewrite (Permutation_length (sort_created_desc_perm _ _)).
Qed.

Lemma get_user_jobs_page_witness :
  fst (JobTable.get_user_jobs demo_user 2 2
         (demo_world [demo_job_at "j3" "queued" 3; demo_job_at "j2" "cancelled" 2;
                      demo_job_at "j1" "queued" 1])) =
    Ret ([demo_job_at "j1" "queued" 1], 3%nat) /\
  snd (JobTable.get_user_jobs demo_user 2 2
         (demo_world [demo_job_at "j3" "queued" 3; demo_job_at "j2" "cancelled" 2;
                      demo_job_at "j1" "queued" 1])) =
    demo_world [demo_job_at "j3" "queued" 3; demo_job_at "j2" "cancelled" 2;
                demo_job_at "j1" "queued" 1] /\
  3%nat = length (JobTable.user_rows demo_user
                    (db (demo_world [demo_job_at "j3" "queued" 3;
                                     demo_job_at "j2" "cancelled" 2;
                                     demo_job_at "j1" "queued" 1]))) /\
  (forall j, In j [demo_job_at "j1" "queued" 1] ->
     In j (db (demo_world [demo_job_at "j3" "queued" 3; demo_job_at "j2" "cancelled" 2;
                           demo_job_at "j1" "queued" 1])) /\ Job.user_id j = demo_user) /\
  Sorted newer_first [demo_job_at "j1" "queued" 1] /\
  length [demo_job_at "j1" "queued" 1] = Nat.min 2 (3 - (2 - 1) * 2)%nat.
Proof.
  assert (H : fst (JobTable.get_user_jobs demo_user 2 2
         (demo_world [demo_job_at "j3" "queued" 3; demo_job_at "j2" "cancelled" 2;
                      demo_job_at "j1" "queued" 1])) =
    Ret ([demo_job_at "j1" "queued" 1], 3%nat)) by reflexivity.
  split; [exact H|]. exact (get_user_jobs_page _ _ _ _ _ _ (le_n_S _ _ (Nat.le_0_l 1)) H).
Defined.

(** The rows of page [p] of the user's jobs. *)
Lemma page_rows user p size w :
  fst (JobTable.get_user_jobs user p size w) =
  Ret (firstn size (skipn ((p - 1) * size)
         (JobTable.sort_created_desc (tie_rank w ((p - 1) * size) size)
            (JobTable.user_rows user (db w)))),
       length (JobTable.user_rows user (db w))).
Proof. reflexivity. Qed.

(** ** Pending jobs ([Job.get_pending_jobs]) *)

(** X3. [Job.get_pending_jobs limit] reads the table without changing it
    and gives the first [limit] rows of an oldest-first ordering of the
    queued and running rows: every row it gives is queued or running, the
    rows are oldest first, and there are [min(limit, number of pending
    rows)] of them. *)
Theorem get_pending_jobs_oldest limit w :
  snd (JobTable.get_pending_jobs limit w) = w /\
  exists l,
    Permutation l (filter JobTable.is_pending (db w)) /\ Sorted older_first l /\
    fst (JobTable.get_pending_jobs limit w) = Ret (firstn limit l) /\
    (forall j, In j (firstn limit l) ->
       In j (db w) /\ (Job.status j = "queued" \/ Job.status j = "running")) /\
    length (firstn limit l) = Nat.min limit (length (filter JobTable.is_pending (db w))).
Proof.
  split; [reflexivity|].
  exists (JobTable.sort_created_asc (tie_rank w 0 limit) (filter JobTable.is_pending (db w))).
  split; [apply sort_created_asc_perm|]. split; [apply sort_created_asc_sorted|].
  split; [reflexivity|]. split.
  - intros j Hj. apply in_firstn in Hj.
    apply (Permutation_in _ (sort_created_asc_perm _ _)), filter_In in Hj as [Hin Hp].
    split; [exact Hin|]. unfold JobTable.is_pending in Hp. simpl in Hp.
    rewrite orb_false_r in Hp. apply orb_true_iff in Hp as [H|H];
      apply String.eqb_eq in H; auto.
  - rewrite length_firstn. now rewrite (Permutation_length (sort_created_asc_perm _ _)).
Qed.

(** ** Status updates ([Job.update_status], [set_error], [set_results]) *)

(** X4. [update_status] with no keyword arguments sets the status and
    never overwrites a start or finish time already set; on a row without
    one, it sets the start time to the clock only when moving to running,
    and the finish time only when moving to completed or failed. The id,
    owner, type, creation time, results and error are unchanged. *)
Theorem update_status_row_timestamps now job status :
  Job.status (Job.update_status_row now job status []) = status /\
  (forall t, Job.started_at job = Some t ->
     Job.started_at (Job.update_status_row now job status []) = Some t) /\
  (forall t, Job.finished_at job = Some t ->
     Job.finished_at (Job.update_status_row now job status []) = Some t) /\
  (Job.started_at job = None ->
     Job.started_at (Job.update_status_row now job status []) =
       if String.eqb status "running" then Some now else None) /\
  (Job.finished_at job = None ->
     Job.finished_at (Job.update_status_row now job status []) =
       if String.eqb status "completed" || String.eqb status "failed"
       then Some now else None) /\
  Job.id (Job.update_status_row now job status []) = Job.id job /\
  Job.user_id (Job.update_status_row now job status []) = Job.user_id job /\
  Job.type (Job.update_status_row now job status []) = Job.type job /\
  Job.created_at (Job.update_status_row now job status []) = Job.created_at job /\
  Job.result_refs (Job.update_status_row now job status []) = Job.result_refs job /\
  Job.error (Job.update_status_row now job status []) = Job.error job.
Proof.
  destruct job as [id uid ty st pj sy s e iv ve ad ca sa fa rr er].
  unfold Job.update_status_row, Job.with_status, Job.with_started_at,
    Job.with_finished_at; cbn.
  destruct (String.eqb_spec status "running") as [->|Hr].
  - destruct sa, fa; cbn; repeat split; intros; congruence.
  - apply String.eqb_neq in Hr. rewrite ?Hr. cbn.
    destruct ((status =? "completed") || (status =? "failed")) eqn:Ecf;
      destruct sa, fa; cbn; repeat split; intros; congruence.
Qed.

Lemma find_replace d u r :
  Job.id r = u -> In u (map Job.id d) ->
  find (fun j => String.eqb (Job.id j) u)
       (map (fun j => if String.eqb (Job.id j) u then r else j) d) = Some r.
Proof.
  intro Hr. induction d as [|y d IH]; cbn; [tauto|]. intros Hin.
  destruct (String.eqb_spec (Job.id y) u) as [Hy|Hy]; cbn.
  - rewrite Hr, String.eqb_refl. reflexivity.
  - destruct (String.eqb_spec (Job.id y) u); [contradiction|].
    apply IH. destruct Hin as [Hin|Hin]; [congruence|exact Hin].
Qed.







(** X6. [set_error] stores the row as failed with the message as its error,
    and [set_results] stores it as completed with the result references;
    both set the finish time to the clock unless one is set already, and
    keep the start time and the other of the two fields. *)
Theorem set_error_and_set_results_rows self msg refs w :
  In (Job.id self) (map Job.id (db w)) ->
  (exists r,
     fst (JobTable.set_error self msg w) = Ret r /\
     find (fun j => String.eqb (Job.id j) (Job.id self))
          (db (snd (JobTable.set_error self msg w))) = Some r /\
     Job.status r = "failed" /\ Job.error r = Some msg /\
     Job.finished_at r = Some (match Job.finished_at self with Some t => t | None => clock w end) /\
     Job.started_at r = Job.started_at self /\
     Job.result_refs r = Job.result_refs self) /\
  (exists r,
     fst (JobTable.set_results self refs w) = Ret r /\
     find (fun j => String.eqb (Job.id j) (Job.id self))
          (db (snd (JobTable.set_results self refs w))) = Some r /\
     Job.status r = "completed" /\ Job.result_refs r = Some refs /\
     Job.finished_at r = Some (match Job.finished_at self with Some t => t | None => clock w end) /\
     Job.started_at r = Job.started_at self /\
     Job.error r = Job.error self).
Proof.
  intro Hin. destruct self as [id uid ty st pj sy s e iv ve ad ca sa fa rr er].
  unfold JobTable.set_error, JobTable.set_results.
  rewrite !update_status_eq by reflexivity.
  destruct fa; cbn;
    (split; eexists; (split; [reflexivity|]); (split;
      [apply find_replace; [reflexivity|exact Hin] | repeat split])).
Qed.

Lemma set_error_and_set_results_rows_witness :
  In "j1" (map Job.id (db (demo_world [demo_running_job]))) /\
  (exists r,
     fst (JobTable.set_error demo_running_job "boom" (demo_world [demo_running_job])) = Ret r /\
     Job.status r = "failed").
Proof.
  split; [left; reflexivity|].
  destruct (proj1 (set_error_and_set_results_rows demo_running_job "boom" JNull
              (demo_world [demo_running_job]) (or_introl eq_refl)))
    as (r & H1 & _ & H3 & _).
  exists r. split; [exact H1|exact H3].
Defined.

(** ** Duration estimate and progress ([_estimate_job_duration],
    [_calculate_job_progress]) *)

(** X7. The duration estimate of a job type grows with the number of
    symbols, by two seconds a symbol, from the type's base (at no symbol)
    up to the base plus one minute, reached at 30 symbols; every estimate
    lies between 10 and 105 seconds. *)
Theorem estimate_job_duration_bounds jt n m :
  0 <= n <= m ->
  Api._estimate_job_duration jt 0 <= Api._estimate_job_duration jt n /\
  Api._estimate_job_duration jt n <= Api._estimate_job_duration jt m /\
  Api._estimate_job_duration jt m <= Api._estimate_job_duration jt 0 + 60 /\
  (30 <= n -> Api._estimate_job_duration jt n = Api._estimate_job_duration jt 0 + 60) /\
  (n < 30 -> Api._estimate_job_duration jt n = Api._estimate_job_duration jt 0 + 2 * n) /\
  10 <= Api._estimate_job_duration jt n <= 105.
Proof.
  intros Hnm. unfold Api._estimate_job_duration.
  destruct jt; repeat split; intros; lia.
Qed.

Lemma estimate_job_duration_bounds_witness :
  0 <= 3 <= 40 /\
  Api._estimate_job_duration MONTE_CARLO 3 <= Api._estimate_job_duration MONTE_CARLO 40.
Proof.
  split; [lia|].
  exact (proj1 (proj2 (estimate_job_duration_bounds MONTE_CARLO 3 40 ltac:(lia)))).
Defined.

Lemma estimate_pos jt n : 0 <= n -> 0 < Api._estimate_job_duration jt n.
Proof. intro H. unfold Api._estimate_job_duration. destruct jt; lia. Qed.

Lemma ratio_progress_bounds e d :
  0 <= e -> 0 < d ->
  (0 <= Qmin (9 # 10) (inject_Z e / inject_Z d))%Q /\
  (Qmin (9 # 10) (inject_Z e / inject_Z d) <= 9 # 10)%Q.
Proof.
  intros He Hd. split.
  - apply Q.min_glb; [unfold Qle; simpl; lia|].
    apply Qle_shift_div_l; [unfold Qlt; simpl; lia|].
    rewrite Qmult_0_l. unfold Qle; simpl; lia.
  - apply Q.le_min_l.
Qed.

(** X8. When a row's start time is never before its creation time, the
    progress [_calculate_job_progress] gives is a fraction between 0 and 1,
    at most 0.9 for a running job, and it reads nothing but the row. *)
Theorem progress_in_unit_interval job w q :
  (forall s, Job.started_at job = Some s -> Job.created_at job <= s) ->
  fst (Api._calculate_job_progress job w) = Ret (Some q) ->
  snd (Api._calculate_job_progress job w) = w /\
  (0 <= q)%Q /\ (q <= 1)%Q /\ (Job.status job = "running" -> (q <= 9 # 10)%Q).
Proof.
  intros Hs. unfold Api._calculate_job_progress, ret, bind.
  destruct (String.eqb_spec (Job.status job) "queued") as [Eq|Nq].
  { cbn. intro H. injection H as <-. rewrite Eq. repeat split; try discriminate;
    unfold Qle; simpl; lia. }
  destruct (String.eqb_spec (Job.status job) "running") as [Er|Nr].
  - destruct (Job.started_at job) as [s|] eqn:Es.
    + specialize (Hs s eq_refl).
      destruct (JobType_of (Job.type job) w) as [[jt|e] w1] eqn:Ej.
      * assert (w1 = w) as ->.
        { revert Ej. unfold JobType_of, ret, raise.
          repeat (destruct (String.eqb _ _); [intro H; now injection H|]).
          intro H; discriminate. }
        cbn. intro H. injection H as <-.
        destruct (ratio_progress_bounds (s - Job.created_at job)
          (Api._estimate_job_duration jt (Z.of_nat (length (Job.symbols job)))))
          as [H0 H9]; [lia | apply estimate_pos; lia |].
        repeat split; auto.
        apply (Qle_trans _ _ _ H9). unfold Qle; simpl; lia.
      * cbn. discriminate.
    + cbn. intro H. injection H as <-. repeat split; intros; unfold Qle; simpl; lia.
  - destruct (String.eqb (Job.status job) "completed").
    { cbn. intro H. injection H as <-. repeat split; intros; try contradiction;
      unfold Qle; simpl; lia. }
    destruct (String.eqb (Job.status job) "failed").
    { cbn. intro H. injection H as <-. repeat split; intros; try contradiction;
      unfold Qle; simpl; lia. }
    cbn. discriminate.
Qed.

Lemma progress_in_unit_interval_witness :
  (forall s, Job.started_at demo_running_job = Some s ->
             Job.created_at demo_running_job <= s) /\
  exists q, fst (Api._calculate_job_progress demo_running_job (demo_world [])) = Ret (Some q) /\
            (q <= 9 # 10)%Q.
Proof.
  assert (Hs : forall s, Job.started_at demo_running_job = Some s ->
                         Job.created_at demo_running_job <= s).
  { intros s H. injection H as <-. cbn. lia. }
  split; [exact Hs|].
  eexists. split; [reflexivity|].
  apply (progress_in_unit_interval demo_running_job (demo_world []) _ Hs eq_refl).
  reflexivity.
Defined.

(** ** The reading endpoints and the refusals of [cancel_job] *)

Lemma unchanged_eq {A} (m : M A) w : preserves unchanged m -> m w = (fst (m w), w).
Proof. intro H. specialize (H w). unfold unchanged in H. destruct (m w); cbn in *; congruence. Qed.

Lemma JobType_of_unchanged s : preserves unchanged (JobType_of s).
Proof. unfold JobType_of. pres_tac. Qed.

Lemma result_ref_unchanged job k : preserves unchanged (Api.result_ref job k).
Proof. unfold Api.result_ref. pres_tac. Qed.

Lemma progress_unchanged job : preserves unchanged (Api._calculate_job_progress job).
Proof. unfold Api._calculate_job_progress, JobType_of. pres_tac. Qed.

Lemma JobStatusResponse_new_unchanged a b c d e f g h i j k l m n o p q r :
  preserves unchanged (JobStatusResponse_new a b c d e f g h i j k l m n o p q r).
Proof. unfold JobStatusResponse_new, validation_error. pres_tac. Qed.

Lemma job_response_unchanged job : preserves unchanged (Api.job_response job).
Proof.
  unfold Api.job_response. pres_tac.
  - apply JobType_of_unchanged.
  - apply result_ref_unchanged.
  - apply result_ref_unchanged.
  - apply progress_unchanged.
  - apply JobStatusResponse_new_unchanged.
Qed.

Lemma get_job_unchanged u user : preserves unchanged (Api.get_job u user).
Proof.
  unfold Api.get_job, Api.parse_job_id, JobTable.get_job.
  pres_tac; apply job_response_unchanged.
Qed.

Lemma JobType_of_ret s jt w : fst (JobType_of s w) = Ret jt -> JobType_value jt = s.
Proof.
  unfold JobType_of, ret, raise.
  destruct (String.eqb_spec s "montecarlo") as [->|_]; [cbn; intro H; now injection H as <-|].
  destruct (String.eqb_spec s "markowitz") as [->|_]; [cbn; intro H; now injection H as <-|].
  destruct (String.eqb_spec s "blackscholes") as [->|_]; [cbn; intro H; now injection H as <-|].
  destruct (String.eqb_spec s "backtest") as [->|_]; [cbn; intro H; now injection H as <-|].
  discriminate.
Qed.

Lemma JobStatus_parse_value s st : JobStatus_parse s = Some st -> JobStatus_value st = s.
Proof.
  unfold JobStatus_parse. intro H. apply find_some in H as [_ H].
  now apply String.eqb_eq in H.
Qed.

Lemma JobStatusResponse_new_ret a b c d e f g h i j k l m n o p q r w v :
  fst (JobStatusResponse_new a b c d e f g h i j k l m n o p q r w) = Ret v ->
  v = mkJobStatusResponse a b c (match JobStatus_parse d with Some st => st | None => QUEUED end)
        e f g h i j k l m n o p q r /\
  exists st, JobStatus_parse d = Some st.
Proof.
  unfold JobStatusResponse_new, validation_error, raise, ret.
  destruct (JobStatus_parse d) as [st|]; [|discriminate].
  repeat match goal with |- context [if ?b then _ else _] => destruct b; [discriminate|] end.
  cbn. intro H. injection H as <-. split; [reflexivity|]. now exists st.
Qed.

Lemma job_response_ret job w v :
  fst (Api.job_response job w) = Ret v ->
  view_of job v /\ fst (Api._calculate_job_progress job w) = Ret (r_progress v).
Proof.
  unfold Api.job_response, bind.
  rewrite (unchanged_eq _ w (JobType_of_unchanged _)).
  destruct (fst (JobType_of (Job.type job) w)) as [jt|] eqn:Ej; [|discriminate].
  rewrite (unchanged_eq _ w (result_ref_unchanged _ _)).
  destruct (fst (Api.result_ref job "metrics" w)) as [mt|]; [|discriminate].
  rewrite (unchanged_eq _ w (result_ref_unchanged _ _)).
  destruct (fst (Api.result_ref job "urls" w)) as [ru|]; [|discriminate].
  rewrite (unchanged_eq _ w (progress_unchanged _)).
  destruct (fst (Api._calculate_job_progress job w)) as [pg|]; [|discriminate].
  intro H. apply JobStatusResponse_new_ret in H as [-> [st Hst]].
  rewrite Hst. apply JobStatus_parse_value in Hst.
  split; [|reflexivity].
  unfold view_of; cbn. repeat split; auto. exact (JobType_of_ret _ _ _ Ej).
Qed.

(** X9. [get_job] never changes the world, and refuses a malformed id
    with 400, an id without a row with 404 and another user's row with
    403. *)
Theorem get_job_refusals u user w :
  snd (Api.get_job u user w) = w /\
  (u = None -> fst (Api.get_job u user w) = Raise (HTTPException 400 "Invalid job ID format")) /\
  (forall id, u = Some id -> find (fun j => String.eqb (Job.id j) id) (db w) = None ->
     fst (Api.get_job u user w) = Raise (HTTPException 404 "Job not found")) /\
  (forall id job, u = Some id -> find (fun j => String.eqb (Job.id j) id) (db w) = Some job ->
     Job.user_id job <> user ->
     fst (Api.get_job u user w) = Raise (HTTPException 403 "Access denied")).
Proof.
  split; [apply get_job_unchanged|].
  unfold Api.get_job, Api.parse_job_id, JobTable.get_job, bind, gets, raise.
  repeat split.
  - intros ->. reflexivity.
  - intros id -> H. cbn. rewrite H. reflexivity.
  - intros id job -> H Hu. cbn. rewrite H.
    destruct (String.eqb_spec (Job.user_id job) user); [contradiction|reflexivity].
Qed.

(** X10. When [get_job] answers, the row it answers for is the caller's,
    and its view copies the row's id, owner, status, type, symbols,
    parameters, times and error, with the progress of
    [_calculate_job_progress]. *)
Theorem get_job_view_mirrors_row id user w job v :
  find (fun j => String.eqb (Job.id j) id) (db w) = Some job ->
  fst (Api.get_job (Some id) user w) = Ret v ->
  Job.id job = id /\ Job.user_id job = user /\ view_of job v /\
  fst (Api._calculate_job_progress job w) = Ret (r_progress v).
Proof.
  intros Hf. unfold Api.get_job, Api.parse_job_id, JobTable.get_job, bind, gets.
  cbn. rewrite Hf.
  destruct (String.eqb_spec (Job.user_id job) user) as [Hu|Hu]; cbn; [|discriminate].
  intro H. apply job_response_ret in H as [Hv Hp].
  apply find_some in Hf as [_ Hid]. apply String.eqb_eq in Hid.
  exact (conj Hid (conj Hu (conj Hv Hp))).
Qed.

Lemma get_job_view_mirrors_row_witness :
  exists v,
    find (fun j => String.eqb (Job.id j) "j1") (db (demo_world [demo_job "j1" "queued"])) =
      Some (demo_job "j1" "queued") /\
    fst (Api.get_job (Some "j1") demo_user (demo_world [demo_job "j1" "queued"])) = Ret v /\
    JobStatus_value (r_status v) = "queued".
Proof.
  eexists. split; [reflexivity|]. split; [vm_compute; reflexivity|].
  destruct (get_job_view_mirrors_row "j1" demo_user (demo_world [demo_job "j1" "queued"])
              (demo_job "j1" "queued") _ eq_refl eq_refl) as (_ & _ & Hv & _).
  exact (proj1 (proj2 (proj2 Hv))).
Defined.

Lemma map_m_job_response l w vs :
  fst (Api.map_m Api.job_response l w) = Ret vs -> Forall2 view_of l vs.
Proof.
  revert vs. induction l as [|x r IH]; intro vs; cbn [Api.map_m].
  - unfold ret. cbn. intro H. injection H as <-. constructor.
  - unfold bind. rewrite (unchanged_eq _ w (job_response_unchanged x)).
    destruct (fst (Api.job_response x w)) as [y|] eqn:Ey; [|discriminate].
    rewrite (unchanged_eq _ w (map_m_pres _ r job_response_unchanged)).
    destruct (fst (Api.map_m Api.job_response r w)) as [ys|] eqn:Eys; [|discriminate].
    cbn. intro H. injection H as <-. constructor.
    + exact (proj1 (job_response_ret _ _ _ Ey)).
    + exact (IH _ eq_refl).
Qed.

Lemma list_jobs_unchanged page size jt sf user :
  preserves unchanged (Api.list_jobs page size jt sf user).
Proof.
  unfold Api.list_jobs, JobTable.get_user_jobs.
  pres_tac. apply map_m_pres. apply job_response_unchanged.
Qed.

Lemma list_jobs_ret page size jt sf user w resp :
  fst (Api.list_jobs page size jt sf user w) = Ret resp ->
  Forall2 view_of
    (if Job.is_some jt || Api.status_filter_active sf
     then filter (Api.keep_job jt sf)
            (firstn size (skipn ((page - 1) * size)
               (JobTable.sort_created_desc (tie_rank w ((page - 1) * size) size)
                  (JobTable.user_rows user (db w)))))
     else firstn size (skipn ((page - 1) * size)
            (JobTable.sort_created_desc (tie_rank w ((page - 1) * size) size)
               (JobTable.user_rows user (db w)))))
    (l_jobs resp) /\
  l_total resp = length (JobTable.user_rows user (db w)) /\
  l_has_next resp = Nat.ltb (page * size) (length (JobTable.user_rows user (db w))).
Proof.
  unfold Api.list_jobs, JobTable.get_user_jobs, gets, bind at 1. cbv beta iota zeta.
  unfold bind.
  match goal with |- context [Api.map_m Api.job_response ?l w] =>
    rewrite (unchanged_eq _ w (map_m_pres _ l job_response_unchanged));
    destruct (fst (Api.map_m Api.job_response l w)) as [vs|] eqn:Evs; [|discriminate] end.
  cbn. intro H. injection H as <-. cbn.
  split; [exact (map_m_job_response _ _ _ Evs)|]. split; reflexivity.
Qed.

Lemma Forall2_view_Forall (P : Job.t -> Prop) (Q : JobStatusResponse -> Prop) l vs :
  Forall2 view_of l vs -> Forall P l ->
  (forall j v, view_of j v -> P j -> Q v) -> Forall Q vs.
Proof.
  intros H2 HP HQ. induction H2 as [|j v l vs Hjv H2 IH]; constructor.
  - inversion HP; subst. eauto.
  - inversion HP; subst. auto.
Qed.

Lemma filter_length_le' {A} (f : A -> bool) l : (length (filter f l) <= length l)%nat.
Proof. induction l as [|x l IH]; cbn; [lia|]. destruct (f x); cbn; lia. Qed.

Lemma page_in_user_rows user size page w j :
  In j (firstn size (skipn ((page - 1) * size)
          (JobTable.sort_created_desc (tie_rank w ((page - 1) * size) size)
             (JobTable.user_rows user (db w))))) ->
  In j (db w) /\ Job.user_id j = user.
Proof.
  intro H. apply in_user_rows.
  exact (Permutation_in _ (sort_created_desc_perm _ _)
           (in_skipn _ _ _ (in_firstn _ _ _ H))).
Qed.

Lemma JobType_value_inj a b : JobType_value a = JobType_value b -> a = b.
Proof. destruct a, b; cbn; congruence. Qed.

(** X11. [list_jobs] never changes the world, answers at most [size]
    views, each the view of one of the caller's rows, and reports as total
    the number of all the caller's rows. *)
Theorem list_jobs_callers_rows page size jt sf user w resp :
  fst (Api.list_jobs page size jt sf user w) = Ret resp ->
  snd (Api.list_jobs page size jt sf user w) = w /\
  Forall (fun v => r_user_id v = user /\ exists j, In j (db w) /\ view_of j v)
    (l_jobs resp) /\
  (length (l_jobs resp) <= size)%nat /\
  l_total resp = length (JobTable.user_rows user (db w)).
Proof.
  intro H. split; [apply list_jobs_unchanged|].
  apply list_jobs_ret in H as (H2 & Ht & _).
  split; [|split; [|exact Ht]].
  - eapply Forall2_view_Forall; [exact H2| |].
    + apply Forall_forall. intros j Hj.
      destruct (_ || _); [apply filter_In in Hj as [Hj _]|];
        exact (page_in_user_rows _ _ _ _ _ Hj).
    + intros j v Hv [Hin Hu]. split; [|exists j; auto].
      destruct Hv as (_ & Hr & _). congruence.
  - rewrite <- (Forall2_length H2).
    destruct (_ || _); [eapply Nat.le_trans; [apply filter_length_le'|]|];
      apply firstn_le_length.
Qed.

Lemma list_jobs_callers_rows_witness :
  exists resp,
    fst (Api.list_jobs 1 10 None None demo_user
           (demo_world [demo_job_at "j1" "queued" 1; demo_job_at "j2" "queued" 2])) = Ret resp /\
    (length (l_jobs resp) <= 10)%nat.
Proof.
  eexists. split; [vm_compute; reflexivity|].
  exact (proj1 (proj2 (proj2 (list_jobs_callers_rows 1 10 None None demo_user
    (demo_world [demo_job_at "j1" "queued" 1; demo_job_at "j2" "queued" 2]) _ eq_refl)))).
Defined.

(** X12. With a type filter every view of [list_jobs] has that type; with
    a non-empty status filter every view has that status; an empty status
    filter is ignored: the call answers and acts as with no status filter. *)
Theorem list_jobs_filters_hold page size jt sf user w resp :
  fst (Api.list_jobs page size jt sf user w) = Ret resp ->
  (forall t, jt = Some t -> Forall (fun v => r_type v = t) (l_jobs resp)) /\
  (forall s, sf = Some s -> s <> "" ->
     Forall (fun v => JobStatus_value (r_status v) = s) (l_jobs resp)) /\
  (sf = Some "" -> Api.list_jobs page size jt sf user w = Api.list_jobs page size jt None user w).
Proof.
  intro H. pose proof (list_jobs_ret _ _ _ _ _ _ _ H) as (H2 & _ & _).
  split; [|split].
  - intros t ->. cbn in H2.
    eapply Forall2_view_Forall; [exact H2| |].
    + apply Forall_forall. intros j Hj. apply filter_In in Hj as [_ Hk].
      unfold Api.keep_job in Hk. apply andb_prop in Hk as [Ht _].
      apply String.eqb_eq in Ht. exact Ht.
    + intros j v Hv Hj. apply JobType_value_inj. destruct Hv as (_ & _ & _ & Ht & _).
      congruence.
  - intros s -> Hs.
    assert (Ha : Api.status_filter_active (Some s) = true).
    { cbn. destruct (String.eqb_spec s ""); [contradiction|reflexivity]. }
    rewrite Ha, orb_true_r in H2.
    eapply Forall2_view_Forall; [exact H2| |].
    + apply Forall_forall. intros j Hj. apply filter_In in Hj as [_ Hk].
      unfold Api.keep_job in Hk. rewrite Ha in Hk. apply andb_prop in Hk as [_ Hst].
      apply String.eqb_eq in Hst. exact Hst.
    + intros j v Hv Hj. destruct Hv as (_ & _ & Hst & _). congruence.
  - intros ->. reflexivity.
Qed.

Lemma list_jobs_filters_hold_witness :
  exists resp,
    fst (Api.list_jobs 1 10 (Some BLACK_SCHOLES) (Some "queued") demo_user
           (demo_world [demo_job_at "j1" "queued" 1; demo_job_at "j2" "cancelled" 2])) = Ret resp /\
    Forall (fun v => JobStatus_value (r_status v) = "queued") (l_jobs resp).
Proof.
  eexists. split; [vm_compute; reflexivity|].
  exact (proj1 (proj2 (list_jobs_filters_hold 1 10 (Some BLACK_SCHOLES) (Some "queued") demo_user
    (demo_world [demo_job_at "j1" "queued" 1; demo_job_at "j2" "cancelled" 2]) _ eq_refl))
    "queued" eq_refl ltac:(discriminate)).
Defined.

Lemma firstn_skipn_nonempty {A} n k (l : list A) :
  (0 < n)%nat -> (firstn n (skipn k l) <> [] <-> (k < length l)%nat).
Proof.
  intro Hn. rewrite <- length_zero_iff_nil, length_firstn, length_skipn. lia.
Qed.

(** X13. With a positive page size, [list_jobs] reports a next page
    exactly when the next page of the caller's rows, before any filter,
    is not empty. *)
Theorem list_jobs_has_next page size jt sf user w resp :
  (0 < size)%nat ->
  fst (Api.list_jobs page size jt sf user w) = Ret resp ->
  (l_has_next resp = true <->
   exists jobs total,
     fst (JobTable.get_user_jobs user (S page) size w) = Ret (jobs, total) /\ jobs <> []).
Proof.
  intros Hs H. apply list_jobs_ret in H as (_ & _ & ->).
  rewrite Nat.ltb_lt. split.
  - intro Hlt. eexists _, _. split; [apply page_rows|].
    replace ((S page - 1) * size)%nat with (page * size)%nat by lia.
    apply firstn_skipn_nonempty; [exact Hs|].
    now rewrite (Permutation_length (sort_created_desc_perm _ _)).
  - intros (jobs & total & Hp & Hne). rewrite page_rows in Hp.
    replace (S page - 1)%nat with page in Hp by lia.
    injection Hp as <- _.
    apply firstn_skipn_nonempty in Hne; [|exact Hs].
    now rewrite (Permutation_length (sort_created_desc_perm _ _)) in Hne.
Qed.

Lemma list_jobs_has_next_witness :
  exists resp,
    (0 < 1)%nat /\
    fst (Api.list_jobs 1 1 None None demo_user
           (demo_world [demo_job_at "j1" "queued" 1; demo_job_at "j2" "queued" 2])) = Ret resp /\
    l_has_next resp = true.
Proof.
  eexists. split; [lia|]. split; [vm_compute; reflexivity|].
  apply (list_jobs_has_next 1 1 None None demo_user
    (demo_world [demo_job_at "j1" "queued" 1; demo_job_at "j2" "queued" 2]) _ ltac:(lia) eq_refl).
  eexists _, _. split; [reflexivity|]. discriminate.
Defined.

(** X14. [cancel_job] leaves the world as it was when it refuses: 400 for
    a malformed id, 404 for an id without a row, 403 for another user's
    row. *)
Theorem cancel_job_refusals u user w :
  (u = None ->
     Api.cancel_job u user w = (Raise (HTTPException 400 "Invalid job ID format"), w)) /\
  (forall id, u = Some id -> find (fun j => String.eqb (Job.id j) id) (db w) = None ->
     Api.cancel_job u user w = (Raise (HTTPException 404 "Job not found"), w)) /\
  (forall id job, u = Some id -> find (fun j => String.eqb (Job.id j) id) (db w) = Some job ->
     Job.user_id job <> user ->
     Api.cancel_job u user w = (Raise (HTTPException 403 "Access denied"), w)).
Proof.
  unfold Api.cancel_job, Api.parse_job_id, JobTable.get_job, bind, gets, raise.
  repeat split.
  - intros ->. reflexivity.
  - intros id -> H. cbn. rewrite H. reflexivity.
  - intros id job -> H Hu. cbn. rewrite H.
    destruct (String.eqb_spec (Job.user_id job) user); [contradiction|reflexivity].
Qed.

(** ** The artifact bucket ([GCSWriter]) *)

Lemma json_eqb_eq : forall a b, json_eqb a b = true <-> a = b.
Proof.
  fix IH 1. intros [| x | x | x | l1 | k1] [| y | y | y | l2 | k2]; cbn;
    try (split; [discriminate | intro H; discriminate H]).
  - tauto.
  - rewrite Bool.eqb_true_iff. split; congruence.
  - rewrite Z.eqb_eq. split; congruence.
  - rewrite String.eqb_eq. split; congruence.
  - revert l2. induction l1 as [|x r1 IHr]; intros [|y r2]; cbn;
      try (split; [discriminate | intro H; discriminate H]).
    + tauto.
    + rewrite andb_true_iff, IH, IHr. split.
      * intros [-> H]. congruence.
      * intro H. injection H as -> ->. auto.
  - revert k2. induction k1 as [|[s1 x] r1 IHr]; intros [|[s2 y] r2]; cbn;
      try (split; [discriminate | intro H; discriminate H]).
    + tauto.
    + rewrite !andb_true_iff, String.eqb_eq, IH, IHr. split.
      * intros [[-> ->] H]. congruence.
      * intro H. injection H as -> -> ->. auto.
Qed.

(** ** Submitting a job ([create_job] of the API and of [Job]) *)

(** X15. Submitting with an id the table already holds fails with 500 and
    changes nothing: no row is added and nothing is published. *)
Theorem submit_duplicate_id_changes_nothing pub new_id user req w :
  existsb (fun j => String.eqb (Job.id j) new_id) (db w) = true ->
  Submit.create_job pub new_id user req w =
    (Raise (HTTPException 500
       "Failed to create job: duplicate key value violates unique constraint"), w).
Proof.
  intro Hd. unfold Submit.create_job, try_except, bind, JobTable.create_job.
  rewrite Hd. reflexivity.
Qed.

Lemma submit_duplicate_id_changes_nothing_witness :
  existsb (fun j => String.eqb (Job.id j) "j1") (db (demo_world [demo_job "j1" "queued"])) = true /\
  Submit.create_job pub_ok "j1" demo_user demo_request (demo_world [demo_job "j1" "queued"]) =
    (Raise (HTTPException 500
       "Failed to create job: duplicate key value violates unique constraint"),
     demo_world [demo_job "j1" "queued"]).
Proof.
  split; [reflexivity|].
  apply submit_duplicate_id_changes_nothing. reflexivity.
Defined.

(** X16. Submitting with a fresh id appends, whether or not the publish
    succeeds, the row built from the request: the caller as owner, the
    request's type, symbols, dates, interval, adjustment and parameters,
    the vendor defaulting to [eodhd], created at the clock, with no start,
    finish, results or error. A success answers "Job queued successfully"
    with the duration estimate of the request's type and symbol count. *)
Theorem submit_row_from_request pub new_id user req w :
  existsb (fun j => String.eqb (Job.id j) new_id) (db w) = false ->
  db (snd (Submit.create_job pub new_id user req w)) =
    (db w ++ [Job.mk new_id user (JobType_value (q_type req)) "queued" (q_params req)
               (q_symbols req) (q_start req) (q_end req) (q_interval req)
               (match q_vendor req with Some v => v | None => "eodhd" end)
               (q_adjusted req) (clock w) None None None None])%list /\
  (forall resp, fst (Submit.create_job pub new_id user req w) = Ret resp ->
     c_message resp = "Job queued successfully" /\
     c_estimated_duration resp =
       Some (Api._estimate_job_duration (q_type req) (Z.of_nat (length (q_symbols req))))).
Proof.
  intro Hf. unfold Submit.create_job, try_except, bind, JobTable.create_job.
  rewrite Hf. unfold publish_job, ret, raise, modify, Submit.db_rollback.
  destruct (publisher_available pub); cbn.
  - destruct (publish_result pub _); cbn.
    + split; [reflexivity|]. intros resp H. injection H as <-. split; reflexivity.
    + split; [reflexivity|]. discriminate.
  - split; [reflexivity|]. intros resp H. injection H as <-. split; reflexivity.
Qed.

Lemma submit_row_from_request_witness :
  existsb (fun j => String.eqb (Job.id j) "j2") (db (demo_world [demo_job "j1" "queued"])) = false /\
  forall resp,
    fst (Submit.create_job pub_ok "j2" demo_user demo_request (demo_world [demo_job "j1" "queued"])) =
      Ret resp ->
    c_estimated_duration resp = Some 12.
Proof.
  split; [reflexivity|]. intros resp H.
  exact (proj2 (proj2 (submit_row_from_request pub_ok "j2" demo_user demo_request
    (demo_world [demo_job "j1" "queued"]) eq_refl) resp H)).
Defined.

Lemma append_assoc_str (a b c : string) : ((a ++ b) ++ c)%string = (a ++ (b ++ c))%string.
Proof. induction a as [|x a IH]; cbn; [reflexivity|]. now rewrite IH. Qed.

Lemma eqb_app_l (s a b : string) : String.eqb (s ++ a) (s ++ b) = String.eqb a b.
Proof. induction s as [|c s IH]; cbn; [reflexivity|]. now rewrite Ascii.eqb_refl. Qed.

(** Two files of one job have the same path exactly when they have the
    same name. *)
Lemma job_path_eqb j f1 f2 : String.eqb (job_path j f1) (job_path j f2) = String.eqb f1 f2.
Proof. unfold job_path. rewrite !eqb_app_l. reflexivity. Qed.

Lemma prefix_app (s t : string) : String.prefix s (s ++ t) = true.
Proof.
  induction s as [|c s IH]; cbn; [now destruct t|].
  destruct (Ascii.ascii_dec c c); [exact IH | contradiction].
Qed.

(** Every file of a job is under the job's prefix. *)
Lemma job_path_prefix j f : String.prefix ("jobs/" ++ py_str j ++ "/") (job_path j f) = true.
Proof.
  unfold job_path. replace ("jobs/" ++ py_str j ++ "/" ++ f)
    with (("jobs/" ++ py_str j ++ "/") ++ f) by now rewrite !append_assoc_str.
  apply prefix_app.
Qed.

(** The object found at [p] after [path] is written with [c]. *)
Lemma find_put_path (l : list (string * json)) path c p :
  option_map snd (find (fun kv => String.eqb (fst kv) p)
    (filter (fun kv => negb (String.eqb (fst kv) path)) l ++ [(path, c)])%list) =
  if String.eqb path p then Some c
  else option_map snd (find (fun kv => String.eqb (fst kv) p) l).
Proof.
  induction l as [|[k v] l IH]; cbn; [now destruct (String.eqb path p)|].
  destruct (String.eqb_spec k path) as [->|Hk]; cbn.
  - rewrite IH. destruct (String.eqb path p); reflexivity.
  - destruct (String.eqb_spec k p) as [->|Hkp]; cbn.
    + destruct (String.eqb_spec path p); [congruence|reflexivity].
    + exact IH.
Qed.

Lemma gcs_put_ok env path c w :
  gcs_bucket env = true -> gcs_upload env path = Ret tt ->
  Worker.gcs_put env path c w =
    (Ret path, set_objects (filter (fun kv => negb (String.eqb (fst kv) path)) (objects w)
                            ++ [(path, c)])%list w).
Proof.
  intros Hb Hu. unfold Worker.gcs_put. rewrite Hb, Hu. reflexivity.
Qed.

(** X17. With a bucket and a successful upload, [write_metrics_json]
    returns the path [jobs/{job_id}/{filename}] of its object, and
    afterwards that path holds the metrics while every other path holds
    what it held; only the bucket changes. Paths are strings, so the write
    replaces whatever object had the same path, whichever job id gave it.
    Without a bucket it raises [RuntimeError], and on a failed upload it
    raises the upload's exception, in both cases with nothing written. *)
Theorem write_metrics_json_round_trip env job_id metrics filename w :
  (gcs_bucket env = true -> gcs_upload env (job_path job_id filename) = Ret tt ->
   fst (Worker.write_metrics_json env job_id metrics filename w) =
     Ret (job_path job_id filename) /\
   object_at (job_path job_id filename)
     (snd (Worker.write_metrics_json env job_id metrics filename w)) = Some metrics /\
   (forall p, p <> job_path job_id filename ->
      object_at p (snd (Worker.write_metrics_json env job_id metrics filename w)) =
      object_at p w) /\
   db (snd (Worker.write_metrics_json env job_id metrics filename w)) = db w /\
   published (snd (Worker.write_metrics_json env job_id metrics filename w)) = published w /\
   calls (snd (Worker.write_metrics_json env job_id metrics filename w)) = calls w /\
   clock (snd (Worker.write_metrics_json env job_id metrics filename w)) = clock w) /\
  (gcs_bucket env = false ->
   Worker.write_metrics_json env job_id metrics filename w =
     (Raise (PyException "RuntimeError" "GCS client not available"), w)) /\
  (forall e, gcs_bucket env = true -> gcs_upload env (job_path job_id filename) = Raise e ->
   Worker.write_metrics_json env job_id metrics filename w = (Raise e, w)).
Proof.
  unfold Worker.write_metrics_json. split; [|split].
  - intros Hb Hu. rewrite (gcs_put_ok _ _ _ _ Hb Hu). unfold object_at. cbn [fst snd objects set_objects].
    rewrite find_put_path, String.eqb_refl. repeat split.
    intros p Hp. rewrite find_put_path.
    destruct (String.eqb_spec (job_path job_id filename) p); [congruence|reflexivity].
  - intro Hb. unfold Worker.gcs_put. rewrite Hb. reflexivity.
  - intros e Hb Hu. unfold Worker.gcs_put. rewrite Hb, Hu. reflexivity.
Qed.

(** ** The push endpoint's refusals ([process_pubsub_message]) *)

(** X19. The push endpoint refuses, before any decoding and with nothing
    changed: 401 without a [Bearer] authorization; 500 when the body is
    not JSON, or when it or its [message] is not a dict; 400 when the
    message's [data] is empty or missing. *)
Theorem pubsub_refusals env request w :
  (bearer request = false ->
     Worker.process_pubsub_message env request w =
       (Raise (HTTPException 401 "Invalid authentication"), w)) /\
  (bearer request = true -> Worker.body request = None ->
     Worker.process_pubsub_message env request w =
       (Raise (HTTPException 500 "Internal server error: Expecting value"), w)) /\
  (forall b, bearer request = true -> Worker.body request = Some b -> push_data b = None ->
     Worker.process_pubsub_message env request w =
       (Raise (HTTPException 500
          "Internal server error: object has no attribute 'get'"), w)) /\
  (forall b d, bearer request = true -> Worker.body request = Some b ->
     push_data b = Some d -> py_truthy d = false ->
     Worker.process_pubsub_message env request w =
       (Raise (HTTPException 400 "No message data"), w)).
Proof.
  destruct request as [auth bd]. unfold bearer. cbn.
  unfold Worker.process_pubsub_message, try_except, bind, ret, raise. cbn.
  split; [|split; [|split]].
  - intros ->. reflexivity.
  - intros -> ->. reflexivity.
  - intros b -> ->. unfold push_data, py_get.
    destruct b as [| | | | |kv]; try reflexivity.
    destruct (json_get (JObj kv) "message" (JObj [])); try reflexivity.
    discriminate.
  - intros b d -> ->. unfold push_data, py_get, ret.
    destruct b as [| | | | |kv]; try discriminate.
    destruct (json_get (JObj kv) "message" (JObj [])) as [| | | | |kv']; try discriminate.
    intros Hd Ht. injection Hd as <-. cbn. rewrite Ht. reflexivity.
Qed.

(** ** The worker's pipeline ([process_job]) *)

(** X20. When the price source fails, [process_job] re-raises its
    exception after logging only the price request; with a bucket and a
    successful upload it has written [error.json] with the job id, the
    message and the clock, and without a bucket it has written nothing:
    the failed write does not mask the exception. The table is not
    touched. *)
Theorem process_job_failure_writes_error env job_data w k m :
  is_dict job_data = true ->
  (forall a b c d e f, load_prices env a b c d e f = Raise (PyException k m)) ->
  fst (Worker.process_job env job_data w) = Raise (PyException k m) /\
  calls (snd (Worker.process_job env job_data w)) =
    (calls w ++ [CLoadPrices (json_get job_data "job_id" JNull)])%list /\
  db (snd (Worker.process_job env job_data w)) = db w /\
  (gcs_bucket env = true ->
   gcs_upload env (job_path (json_get job_data "job_id" JNull) "error.json") = Ret tt ->
   object_at (job_path (json_get job_data "job_id" JNull) "error.json")
     (snd (Worker.process_job env job_data w)) =
   Some (JObj [("job_id", json_get job_data "job_id" JNull); ("error", JStr m);
               ("timestamp", JNum (clock w))])) /\
  (gcs_bucket env = false ->
   objects (snd (Worker.process_job env job_data w)) = objects w).
Proof.
  intros Hd Hl. destruct job_data as [| | | | |kv]; try discriminate.
  unfold Worker.process_job, py_get, Worker.log_call, try_except, bind, ret, modify,
    lift, gets.
  cbn - [json_get Worker.write_metrics_json]. rewrite Hl.
  cbn - [json_get Worker.write_metrics_json].
  destruct (gcs_bucket env) eqn:Hb.
  - destruct (gcs_upload env (job_path (json_get (JObj kv) "job_id" JNull) "error.json"))
      as [[]|e] eqn:Hu.
    + unfold Worker.write_metrics_json. rewrite (gcs_put_ok _ _ _ _ Hb Hu). cbn.
      repeat split; try discriminate. intros _ _. unfold object_at. cbn [objects set_objects].
      rewrite find_put_path, String.eqb_refl. reflexivity.
    + unfold Worker.write_metrics_json, Worker.gcs_put. rewrite Hb, Hu. cbn - [job_path].
      repeat split; intros; congruence.
  - unfold Worker.write_metrics_json, Worker.gcs_put. rewrite Hb. cbn - [job_path].
    repeat split; intros; congruence.
Qed.

Lemma process_job_failure_writes_error_witness :
  is_dict job_data_j1 = true /\
  object_at (job_path (JStr "j1") "error.json")
    (snd (Worker.process_job env_no_data job_data_j1 (demo_world []))) =
  Some (JObj [("job_id", JStr "j1"); ("error", JStr "Failed to load prices from BigQuery");
              ("timestamp", JNum 100)]).
Proof.
  split; [reflexivity|].
  exact (proj1 (proj2 (proj2 (proj2 (process_job_failure_writes_error env_no_data job_data_j1
    (demo_world []) "RuntimeError" "Failed to load prices from BigQuery"
    eq_refl (fun _ _ _ _ _ _ => eq_refl))))) eq_refl eq_refl).
Defined.

Lemma sign_all_ok env url names w :
  (forall p, signed_url env p = Ret (url p)) ->
  Worker.sign_all env names w = (Ret (map url names), w).
Proof.
  intro Hs. induction names as [|n r IH]; [reflexivity|].
  cbn [Worker.sign_all]. unfold bind, lift. rewrite Hs, IH. reflexivity.
Qed.

Lemma generate_signed_urls_ok env url job_id w :
  gcs_bucket env = true -> (forall p, list_blobs env p = Ret tt) ->
  (forall p, signed_url env p = Ret (url p)) ->
  Worker.generate_signed_urls env job_id w =
    (Ret (map url (sort_names (filter (String.prefix ("jobs/" ++ py_str job_id ++ "/"))
                                 (map fst (objects w))))), w).
Proof.
  intros Hb Hl Hs. unfold Worker.generate_signed_urls. rewrite Hb. cbn [negb].
  unfold bind, lift, gets. rewrite Hl. apply sign_all_ok, Hs.
Qed.

Lemma insert_name_perm s l : Permutation (insert_name s l) (s :: l).
Proof.
  induction l as [|x l IH]; cbn; [reflexivity|].
  destruct (String.compare s x); try reflexivity.
  rewrite IH. apply perm_swap.
Qed.

Lemma sort_names_perm l : Permutation (sort_names l) l.
Proof.
  induction l as [|x l IH]; cbn; [reflexivity|].
  rewrite insert_name_perm, IH. reflexivity.
Qed.

Lemma find_path_in (l : list (string * json)) p v :
  option_map snd (find (fun kv => String.eqb (fst kv) p) l) = Some v -> In p (map fst l).
Proof.
  destruct (find _ l) as [[k v']|] eqn:E; [|discriminate]. intros _.
  apply find_some in E as [Hin Hk]. apply String.eqb_eq in Hk. cbn in Hk. subst k.
  apply in_map_iff. exists (p, v'). auto.
Qed.

Lemma csv_lower : String.eqb (str_lower "csv") "csv" = true.
Proof. reflexivity. Qed.

(** Computes the objects of the bucket at the paths of a job. *)
Ltac objects_tac :=
  unfold object_at, set_objects, set_calls; cbn [objects];
  repeat (rewrite find_put_path; rewrite ?job_path_eqb;
          cbn - [json_get job_path map py_str sort_names]).

(** X21. When the price source, the model, the uploads, the listing and
    the signing all succeed and the model reports metrics, [process_job]
    answers a completed result whose artifacts start with [metrics.json]
    and whose signed URLs are those of every object under the job's prefix
    [jobs/{job_id}/], in the order of the listing; it leaves
    [metrics.json] holding the metrics and [summary.json] holding the job's
    data, the clock, the metrics and the same artifacts; it logs the price
    request and the model run, and does not touch the table. *)
Theorem process_job_success_stores_results env job_data w prices kvm metrics url :
  is_dict job_data = true ->
  gcs_bucket env = true ->
  (forall p, gcs_upload env p = Ret tt) ->
  (forall a b c d e f, load_prices env a b c d e f = Ret prices) ->
  (forall a b c, run_model env a b c = Ret (JObj kvm)) ->
  assoc_get "metrics" kvm = Some metrics ->
  (forall p, list_blobs env p = Ret tt) ->
  (forall p, signed_url env p = Ret (url p)) ->
  exists artifacts,
    fst (Worker.process_job env job_data w) =
      Ret (JObj [("job_id", json_get job_data "job_id" JNull); ("status", JStr "completed");
                 ("artifacts", JArr (map JStr artifacts));
                 ("signed_urls", JArr (map JStr (map url (sort_names
                    (filter (String.prefix ("jobs/" ++ py_str (json_get job_data "job_id" JNull) ++ "/"))
                       (map fst (objects (snd (Worker.process_job env job_data w)))))))));
                 ("metrics", metrics)]) /\
    hd_error artifacts = Some (job_path (json_get job_data "job_id" JNull) "metrics.json") /\
    object_at (job_path (json_get job_data "job_id" JNull) "metrics.json")
      (snd (Worker.process_job env job_data w)) = Some metrics /\
    object_at (job_path (json_get job_data "job_id" JNull) "summary.json")
      (snd (Worker.process_job env job_data w)) =
      Some (JObj [("job_id", json_get job_data "job_id" JNull);
                  ("job_type", json_get job_data "type" JNull);
                  ("symbols", json_get job_data "symbols" (JArr []));
                  ("start_date", json_get job_data "start_date" JNull);
                  ("end_date", json_get job_data "end_date" JNull);
                  ("created_at", JNum (clock w)); ("metrics", metrics);
                  ("artifacts", JArr (map JStr artifacts))]) /\
    calls (snd (Worker.process_job env job_data w)) =
      (calls w ++ [CLoadPrices (json_get job_data "job_id" JNull);
                   CRunModel (json_get job_data "job_id" JNull)
                             (json_get job_data "type" JNull)])%list /\
    db (snd (Worker.process_job env job_data w)) = db w.
Proof.
  intros Hd Hb Hu Hl Hr Hm Hlb Hs. destruct job_data as [| | | | |kv]; try discriminate.
  assert (Hput : forall p c w0, Worker.gcs_put env p c w0 =
    (Ret p, set_objects (filter (fun kv => negb (String.eqb (fst kv) p)) (objects w0)
                         ++ [(p, c)])%list w0)).
  { intros. apply gcs_put_ok; auto. }
  assert (Hurls : forall j w0, Worker.generate_signed_urls env j w0 =
    (Ret (map url (sort_names (filter (String.prefix ("jobs/" ++ py_str j ++ "/"))
                                 (map fst (objects w0))))), w0)).
  { intros. apply generate_signed_urls_ok; auto. }
  unfold Worker.process_job, py_get, Worker.log_call, try_except, bind, ret, modify,
    lift, gets.
  cbn - [json_get Worker.gcs_put map Worker.generate_signed_urls py_str sort_names].
  rewrite Hl. cbn - [json_get Worker.gcs_put map Worker.generate_signed_urls py_str sort_names].
  rewrite Hr. cbn - [json_get Worker.gcs_put map Worker.generate_signed_urls py_str sort_names].
  unfold py_getitem. rewrite Hm.
  cbn - [json_get Worker.gcs_put map Worker.generate_signed_urls py_str sort_names].
  unfold Worker.write_metrics_json. rewrite Hput.
  cbn - [json_get Worker.gcs_put map Worker.generate_signed_urls py_str sort_names].
  unfold Worker.write_artifact_dataframe, Worker.write_artifact_csv, Worker.write_job_summary,
    Worker.write_metrics_json.
  rewrite !csv_lower.
  destruct (assoc_get "prices" kvm) as [pp|];
  destruct (json_eqb (json_get (JObj kv) "type" JNull) (JStr "montecarlo"));
  destruct (assoc_get "paths" kvm) as [pa|];
  destruct (json_eqb (json_get (JObj kv) "type" JNull) (JStr "markowitz"));
  destruct (assoc_get "weights" kvm) as [wt|];
  cbn - [json_get Worker.gcs_put map Worker.generate_signed_urls py_str sort_names];
  repeat (rewrite Hput;
          cbn - [json_get Worker.gcs_put map Worker.generate_signed_urls py_str sort_names]);
  rewrite ?Hm;
  cbn - [json_get Worker.gcs_put map Worker.generate_signed_urls py_str sort_names];
  rewrite Hurls;
  cbn - [json_get map py_str sort_names];
  (eexists; split; [reflexivity|]);
  (split; [reflexivity|]);
  (split; [objects_tac; reflexivity|]);
  (split; [objects_tac; reflexivity|]);
  (split; [now rewrite <- app_assoc | reflexivity]).
Qed.

Lemma process_job_success_stores_results_witness :
  is_dict job_data_j1 = true /\
  exists artifacts,
    fst (Worker.process_job env_ok job_data_j1 (demo_world [])) =
      Ret (JObj [("job_id", JStr "j1"); ("status", JStr "completed");
                 ("artifacts", JArr (map JStr artifacts));
                 ("signed_urls", JArr (map JStr (map (fun p => "https://storage.googleapis.com/" ++ p)
                    (sort_names (filter (String.prefix ("jobs/" ++ py_str (JStr "j1") ++ "/"))
                       (map fst (objects (snd (Worker.process_job env_ok job_data_j1
                                                 (demo_world []))))))))));
                 ("metrics", JObj [("option_price", JNum 12)])]).
Proof.
  split; [reflexivity|].
  destruct (process_job_success_stores_results env_ok job_data_j1 (demo_world [])
     (JObj [("AAPL", JArr [JNum 155])]) [("metrics", JObj [("option_price", JNum 12)])]
     (JObj [("option_price", JNum 12)]) (fun p => "https://storage.googleapis.com/" ++ p)
     eq_refl eq_refl (fun _ => eq_refl) (fun _ _ _ _ _ _ => eq_refl)
     (fun _ _ _ => eq_refl) eq_refl (fun _ => eq_refl) (fun _ => eq_refl))
    as (artifacts & H & _).
  exists artifacts. exact H.
Defined.

Lemma JobStatusResponse_new_progress a b c d e f g h i j k l m n o p q r w v :
  fst (JobStatusResponse_new a b c d e f g h i j k l m n o p q r w) = Ret v ->
  match r with Some x => Qle_bool 0 x = true | None => True end.
Proof.
  unfold JobStatusResponse_new, validation_error, raise, ret.
  destruct (JobStatus_parse d) as [st|]; [|discriminate].
  repeat match goal with |- context [if negb ?b then _ else _] =>
    destruct b eqn:?; cbn [negb]; [|discriminate] end.
  intros _. destruct r as [x|]; [|exact I].
  match goal with H : Qle_bool 0 x && Qle_bool x 1 = true |- _ =>
    now apply andb_prop in H as [H _] end.
Qed.

Lemma job_response_progress_checked job w v :
  fst (Api.job_response job w) = Ret v ->
  match r_progress v with Some x => Qle_bool 0 x = true | None => True end.
Proof.
  unfold Api.job_response, bind.
  rewrite (unchanged_eq _ w (JobType_of_unchanged _)).
  destruct (fst (JobType_of (Job.type job) w)); [|discriminate].
  rewrite (unchanged_eq _ w (result_ref_unchanged _ _)).
  destruct (fst (Api.result_ref job "metrics" w)); [|discriminate].
  rewrite (unchanged_eq _ w (result_ref_unchanged _ _)).
  destruct (fst (Api.result_ref job "urls" w)); [|discriminate].
  rewrite (unchanged_eq _ w (progress_unchanged _)).
  destruct (fst (Api._calculate_job_progress job w)) as [pg|]; [|discriminate].
  intro H. pose proof (JobStatusResponse_new_progress _ _ _ _ _ _ _ _ _ _ _ _ _ _ _ _ _ _ _ _ H) as Hp.
  apply JobStatusResponse_new_ret in H as [-> _]. exact Hp.
Qed.

(** X23. [get_job] never answers for a running row whose start time is
    before its creation time: the progress it computes is negative, and
    the response model refuses it. *)
Theorem get_job_refuses_start_before_creation id user w job s :
  find (fun j => String.eqb (Job.id j) id) (db w) = Some job ->
  Job.status job = "running" -> Job.started_at job = Some s -> s < Job.created_at job ->
  forall v, fst (Api.get_job (Some id) user w) <> Ret v.
Proof.
  intros Hf Hst Hs Hlt v H.
  unfold Api.get_job, Api.parse_job_id, JobTable.get_job, bind, gets in H.
  cbn in H. rewrite Hf in H.
  destruct (String.eqb (Job.user_id job) user); cbn in H; [|discriminate].
  pose proof (job_response_progress_checked _ _ _ H) as Hq.
  apply job_response_ret in H as [_ Hp].
  revert Hp. unfold Api._calculate_job_progress, ret, bind.
  rewrite Hst, Hs. cbn.
  destruct (JobType_of (Job.type job) w) as [[jt|e] w1] eqn:Ej; cbn; [|discriminate].
  intro Hp. injection Hp as Hp. rewrite <- Hp in Hq.
  apply Qle_bool_iff in Hq.
  assert (Hd : (0 < inject_Z (Api._estimate_job_duration jt
                  (Z.of_nat (length (Job.symbols job)))))%Q).
  { unfold Qlt; cbn. pose proof (estimate_pos jt (Z.of_nat (length (Job.symbols job)))). lia. }
  assert (Hneg : (inject_Z (s - Job.created_at job) /
                  inject_Z (Api._estimate_job_duration jt
                    (Z.of_nat (length (Job.symbols job)))) < 0)%Q).
  { apply Qlt_shift_div_r; [exact Hd|]. rewrite Qmult_0_l. unfold Qlt; cbn. lia. }
  apply (Qlt_not_le _ _ Hneg). eapply Qle_trans; [exact Hq|]. apply Q.le_min_r.
Qed.

Lemma get_job_refuses_start_before_creation_witness :
  fst (Api.get_job (Some "j1") demo_user
    (demo_world [Job.mk "j1" demo_user "blackscholes" "running" demo_params ["AAPL"]
                   "2024-01-01" "2024-01-31" "1d" "eodhd" true 5 (Some 0) None None None])) =
    Raise (PyException "ValidationError" "progress") /\
  (forall v, fst (Api.get_job (Some "j1") demo_user
    (demo_world [Job.mk "j1" demo_user "blackscholes" "running" demo_params ["AAPL"]
                   "2024-01-01" "2024-01-31" "1d" "eodhd" true 5 (Some 0) None None None])) <>
    Ret v).
Proof.
  split; [vm_compute; reflexivity|].
  apply (get_job_refuses_start_before_creation "j1" demo_user
    (demo_world [Job.mk "j1" demo_user "blackscholes" "running" demo_params ["AAPL"]
                   "2024-01-01" "2024-01-31" "1d" "eodhd" true 5 (Some 0) None None None])
    (Job.mk "j1" demo_user "blackscholes" "running" demo_params ["AAPL"]
       "2024-01-01" "2024-01-31" "1d" "eodhd" true 5 (Some 0) None None None) 0);
    [reflexivity | reflexivity | reflexivity | cbn; lia].
Defined.

(** X24. A successful [process_job] does not remove an [error.json] left
    by an earlier failed delivery of the job: the object is still there,
    and its signed URL is among those of the completed result. *)
Theorem process_job_keeps_stale_error env job_data w prices kvm metrics url err :
  is_dict job_data = true ->
  gcs_bucket env = true ->
  (forall p, gcs_upload env p = Ret tt) ->
  (forall a b c d e f, load_prices env a b c d e f = Ret prices) ->
  (forall a b c, run_model env a b c = Ret (JObj kvm)) ->
  assoc_get "metrics" kvm = Some metrics ->
  (forall p, list_blobs env p = Ret tt) ->
  (forall p, signed_url env p = Ret (url p)) ->
  object_at (job_path (json_get job_data "job_id" JNull) "error.json") w = Some err ->
  exists artifacts urls,
    fst (Worker.process_job env job_data w) =
      Ret (JObj [("job_id", json_get job_data "job_id" JNull); ("status", JStr "completed");
                 ("artifacts", JArr (map JStr artifacts));
                 ("signed_urls", JArr (map JStr urls)); ("metrics", metrics)]) /\
    object_at (job_path (json_get job_data "job_id" JNull) "error.json")
      (snd (Worker.process_job env job_data w)) = Some err /\
    In (url (job_path (json_get job_data "job_id" JNull) "error.json")) urls.
Proof.
  intros Hd Hb Hu Hl Hr Hm Hlb Hs Hf. destruct job_data as [| | | | |kv]; try discriminate.
  assert (Hput : forall p c w0, Worker.gcs_put env p c w0 =
    (Ret p, set_objects (filter (fun kv => negb (String.eqb (fst kv) p)) (objects w0)
                         ++ [(p, c)])%list w0)).
  { intros. apply gcs_put_ok; auto. }
  assert (Hurls : forall j w0, Worker.generate_signed_urls env j w0 =
    (Ret (map url (sort_names (filter (String.prefix ("jobs/" ++ py_str j ++ "/"))
                                 (map fst (objects w0))))), w0)).
  { intros. apply generate_signed_urls_ok; auto. }
  unfold object_at in Hf.
  unfold Worker.process_job, py_get, Worker.log_call, try_except, bind, ret, modify,
    lift, gets.
  cbn - [json_get Worker.gcs_put map Worker.generate_signed_urls py_str sort_names].
  rewrite Hl. cbn - [json_get Worker.gcs_put map Worker.generate_signed_urls py_str sort_names].
  rewrite Hr. cbn - [json_get Worker.gcs_put map Worker.generate_signed_urls py_str sort_names].
  unfold py_getitem. rewrite Hm.
  cbn - [json_get Worker.gcs_put map Worker.generate_signed_urls py_str sort_names].
  unfold Worker.write_metrics_json. rewrite Hput.
  cbn - [json_get Worker.gcs_put map Worker.generate_signed_urls py_str sort_names].
  unfold Worker.write_artifact_dataframe, Worker.write_artifact_csv, Worker.write_job_summary,
    Worker.write_metrics_json.
  rewrite !csv_lower.
  destruct (assoc_get "prices" kvm) as [pp|];
  destruct (json_eqb (json_get (JObj kv) "type" JNull) (JStr "montecarlo"));
  destruct (assoc_get "paths" kvm) as [pa|];
  destruct (json_eqb (json_get (JObj kv) "type" JNull) (JStr "markowitz"));
  destruct (assoc_get "weights" kvm) as [wt|];
  cbn - [json_get Worker.gcs_put map Worker.generate_signed_urls py_str sort_names];
  repeat (rewrite Hput;
          cbn - [json_get Worker.gcs_put map Worker.generate_signed_urls py_str sort_names]);
  rewrite ?Hm;
  cbn - [json_get Worker.gcs_put map Worker.generate_signed_urls py_str sort_names];
  rewrite Hurls;
  cbn - [json_get map py_str sort_names];
  (eexists _, _; split; [reflexivity|]);
  match goal with |- ?A /\ _ =>
    assert (HA : A) by (objects_tac; exact Hf) end;
  (split; [exact HA|]);
  unfold object_at, set_objects, set_calls in HA; cbn [objects] in HA;
  apply in_map; apply (Permutation_in _ (Permutation_sym (sort_names_perm _)));
  apply filter_In; (split; [exact (find_path_in _ _ _ HA) | apply job_path_prefix]).
Qed.

Lemma process_job_keeps_stale_error_witness :
  is_dict job_data_j1 = true /\
  object_at (job_path (JStr "j1") "error.json")
    (mkWorld [] [("jobs/j1/error.json", JObj [("error", JStr "timeout")])] [] [] 100
      (fun _ _ _ => 0)) =
    Some (JObj [("error", JStr "timeout")]) /\
  exists artifacts urls,
    fst (Worker.process_job env_ok job_data_j1
           (mkWorld [] [("jobs/j1/error.json", JObj [("error", JStr "timeout")])] [] [] 100
      (fun _ _ _ => 0))) =
      Ret (JObj [("job_id", JStr "j1"); ("status", JStr "completed");
                 ("artifacts", JArr (map JStr artifacts));
                 ("signed_urls", JArr (map JStr urls));
                 ("metrics", JObj [("option_price", JNum 12)])]) /\
    In "https://storage.googleapis.com/jobs/j1/error.json" urls.
Proof.
  split; [reflexivity|]. split; [reflexivity|].
  destruct (process_job_keeps_stale_error env_ok job_data_j1
     (mkWorld [] [("jobs/j1/error.json", JObj [("error", JStr "timeout")])] [] [] 100
      (fun _ _ _ => 0))
     (JObj [("AAPL", JArr [JNum 155])]) [("metrics", JObj [("option_price", JNum 12)])]
     (JObj [("option_price", JNum 12)]) (fun p => "https://storage.googleapis.com/" ++ p)
     (JObj [("error", JStr "timeout")])
     eq_refl eq_refl (fun _ => eq_refl) (fun _ _ _ _ _ _ => eq_refl)
     (fun _ _ _ => eq_refl) eq_refl (fun _ => eq_refl) (fun _ => eq_refl) eq_refl)
    as (artifacts & urls & H & _ & Hin).
  exists artifacts, urls. exact (conj H Hin).
Defined.

(** ** C2: pipeline failures *)





